(** * discourse-webhook-poc: ingestion gateway, signature check, retry engine

    A shallow embedding of the TypeScript sources

      - [src/shared/security.ts]  ([validateWebhookSignature])
      - [src/shared/queue.ts]     ([MessageQueue.publish], [MessageQueue.consume])
      - [src/worker/index.ts]     ([routeMessage])
      - [src/worker/processors.ts]
      - the webhook handler       ([app.post("/webhook")])

    JavaScript values are a small inductive type, thrown exceptions are an
    explicit completion, and the effects of a request or of a delivery
    (calls on the broker channel, calls of [publish], processor runs) are
    threaded through a state-and-exception monad.  Logger calls have no
    influence on control flow and are left out.  Numbers are integers;
    floating point is outside the model. *)

From Stdlib Require Import ZArith List String Ascii Bool Lia.
From Stdlib Require Import Strings.Byte DecimalString.
From stdpp Require Import gmap strings.
Import ListNotations.

Local Open Scope Z_scope.
#[local] Set Warnings "-register-all".

(* ===================================================================== *)
(** ** Bytes, hexadecimal text and Node's [Buffer]                        *)
(* ===================================================================== *)

Module Buffer.

(** A [Buffer] is a sequence of octets. *)
Definition t := list byte.

Definition octet (z : Z) : byte :=
  match Byte.of_N (Z.to_N (z mod 256)) with
  | Some b => b
  | None => x00
  end.

Definition value (b : byte) : Z := Z.of_N (Byte.to_N b).

(** [Buffer.from(s)] and [buf.toString()] on text that is kept as its
    UTF-8 octets: a JavaScript string is modelled by [string], one
    [ascii] per octet. *)
Definition from_string (s : string) : t := list_byte_of_string s.
Definition toString (b : t) : string := string_of_list_byte b.

(** The sixteen lowercase digits [digest('hex')] writes. *)
Definition hex_digit (n : Z) : ascii :=
  if n <? 10 then ascii_of_N (Z.to_N (48 + n))
  else ascii_of_N (Z.to_N (87 + n)).

Fixpoint toString_hex (b : t) : string :=
  match b with
  | [] => EmptyString
  | x :: rest =>
      String (hex_digit (value x / 16))
        (String (hex_digit (value x mod 16)) (toString_hex rest))
  end.

(** The value of one hexadecimal character, either case; [None] for any
    other character. *)
Definition unhex (c : ascii) : option Z :=
  let n := Z.of_N (N_of_ascii c) in
  if (48 <=? n) && (n <=? 57) then Some (n - 48)
  else if (97 <=? n) && (n <=? 102) then Some (n - 87)
  else if (65 <=? n) && (n <=? 70) then Some (n - 55)
  else None.

(** [Buffer.from(s, 'hex')]: pairs of digits are decoded from the left;
    decoding stops at the first pair that is not two hexadecimal digits,
    and a trailing single character is dropped.  Nothing is thrown.

    Node reads the text by UTF-16 code unit and keeps the low eight bits
    of each, where this function reads the octets of the text.  The two
    agree on text whose characters are all at most U+00FF ([latin1]
    below): an ASCII character is its own octet, and a character from
    U+0080 to U+00FF is no digit for Node while its first octet is none
    here, so both stop at the same pair.  Above U+00FF they differ
    (U+0130 counts as the digit 0 for Node), so a property that decodes
    text it does not build itself is stated for [latin1] text. *)
Fixpoint from_hex (s : string) : t :=
  match s with
  | String c1 (String c2 rest) =>
      match unhex c1, unhex c2 with
      | Some hi, Some lo => octet (16 * hi + lo) :: from_hex rest
      | _, _ => []
      end
  | _ => []
  end.

(** Text whose characters are all at most U+00FF, as its octets show: an
    octet below 128, or one of the two lead octets 194 and 195 followed
    by one continuation octet.  Node decodes HTTP header values as
    latin1, so every header value a request carries is such text. *)
Fixpoint latin1 (s : string) : bool :=
  match s with
  | EmptyString => true
  | String c rest =>
      let n := Z.of_N (N_of_ascii c) in
      if n <? 128 then latin1 rest
      else if (n =? 194) || (n =? 195) then
        match rest with
        | String c' rest' =>
            let m := Z.of_N (N_of_ascii c') in
            (128 <=? m) && (m <=? 191) && latin1 rest'
        | EmptyString => false
        end
      else false
  end.

Definition byte_eqb (x y : byte) : bool := Byte.eqb x y.

Fixpoint equal (a b : t) : bool :=
  match a, b with
  | [], [] => true
  | x :: a', y :: b' => byte_eqb x y && equal a' b'
  | _, _ => false
  end.

(** Flipping bit [k] (0..7) of octet number [i] of a buffer: the
    single-bit mutations of a message or of a digest. *)
Definition flip_octet (k : Z) (x : byte) : byte :=
  octet (Z.lxor (value x) (Z.shiftl 1 (k mod 8))).

Fixpoint flip_bit (i : nat) (k : Z) (b : t) : t :=
  match b, i with
  | [], _ => []
  | x :: rest, O => flip_octet k x :: rest
  | x :: rest, S i' => x :: flip_bit i' k rest
  end.


End Buffer.

(* ===================================================================== *)
(** ** [crypto.createHmac('sha256', key).update(data).digest()]           *)
(* ===================================================================== *)

(** SHA-256 as in FIPS 180-4 on 32-bit words held in [Z], every sum
    reduced modulo [2^32]. *)
Module SHA256.

Definition mask32 : Z := 4294967295.

Definition add32 (x y : Z) : Z := Z.land (x + y) mask32.
Definition rotr (n x : Z) : Z :=
  Z.lor (Z.shiftr x n) (Z.land (Z.shiftl x (32 - n)) mask32).
Definition shr (n x : Z) : Z := Z.shiftr x n.
Definition not32 (x : Z) : Z := Z.lxor x mask32.

Definition Ch (x y z : Z) : Z := Z.lxor (Z.land x y) (Z.land (not32 x) z).
Definition Maj (x y z : Z) : Z :=
  Z.lxor (Z.lxor (Z.land x y) (Z.land x z)) (Z.land y z).
Definition Sum0 (x : Z) : Z := Z.lxor (Z.lxor (rotr 2 x) (rotr 13 x)) (rotr 22 x).
Definition Sum1 (x : Z) : Z := Z.lxor (Z.lxor (rotr 6 x) (rotr 11 x)) (rotr 25 x).
Definition sig0 (x : Z) : Z := Z.lxor (Z.lxor (rotr 7 x) (rotr 18 x)) (shr 3 x).
Definition sig1 (x : Z) : Z := Z.lxor (Z.lxor (rotr 17 x) (rotr 19 x)) (shr 10 x).

(** Round constants: the first 32 bits of the fractional parts of the
    cube roots of the first 64 primes. *)
Definition K : list Z :=
  [ 1116352408; 1899447441; 3049323471; 3921009573;
    961987163; 1508970993; 2453635748; 2870763221;
    3624381080; 310598401; 607225278; 1426881987;
    1925078388; 2162078206; 2614888103; 3248222580;
    3835390401; 4022224774; 264347078; 604807628;
    770255983; 1249150122; 1555081692; 1996064986;
    2554220882; 2821834349; 2952996808; 3210313671;
    3336571891; 3584528711; 113926993; 338241895;
    666307205; 773529912; 1294757372; 1396182291;
    1695183700; 1986661051; 2177026350; 2456956037;
    2730485921; 2820302411; 3259730800; 3345764771;
    3516065817; 3600352804; 4094571909; 275423344;
    430227734; 506948616; 659060556; 883997877;
    958139571; 1322822218; 1537002063; 1747873779;
    1955562222; 2024104815; 2227730452; 2361852424;
    2428436474; 2756734187; 3204031479; 3329325298 ].

(** The eight working variables, also the chaining value. *)
Record regs := Regs { ra : Z; rb : Z; rc : Z; rd : Z; re : Z; rf : Z; rg : Z; rh : Z }.

Definition initial : regs :=
  Regs 1779033703 3144134277 1013904242 2773480762
       1359893119 2600822924 528734635 1541459225.

Definition round (s : regs) (k w : Z) : regs :=
  let t1 := add32 (add32 (add32 (add32 (rh s) (Sum1 (re s))) (Ch (re s) (rf s) (rg s))) k) w in
  let t2 := add32 (Sum0 (ra s)) (Maj (ra s) (rb s) (rc s)) in
  Regs (add32 t1 t2) (ra s) (rb s) (rc s) (add32 (rd s) t1) (re s) (rf s) (rg s).

(** The message schedule is kept as a window of sixteen words, oldest
    first: the head is the word of the current round. *)
Definition next_word (win : list Z) : Z :=
  add32 (add32 (sig1 (nth 14 win 0)) (nth 9 win 0))
        (add32 (sig0 (nth 1 win 0)) (nth 0 win 0)).

Fixpoint rounds (ks : list Z) (win : list Z) (s : regs) : regs :=
  match ks with
  | [] => s
  | k :: ks' => rounds ks' (tl win ++ [next_word win]) (round s k (hd 0 win))
  end.

Definition compress (h : regs) (block : list Z) : regs :=
  let s := rounds K block h in
  Regs (add32 (ra h) (ra s)) (add32 (rb h) (rb s)) (add32 (rc h) (rc s))
       (add32 (rd h) (rd s)) (add32 (re h) (re s)) (add32 (rf h) (rf s))
       (add32 (rg h) (rg s)) (add32 (rh h) (rh s)).

(** Padding: a one bit, zeros up to 56 modulo 64 octets, then the
    length in bits as a 64-bit big-endian number. *)
Definition be_octets (n : nat) (x : Z) : list Z :=
  map (fun i => Z.land (Z.shiftr x (8 * Z.of_nat i)) 255) (rev (seq 0 n)).

Definition pad (msg : list Z) : list Z :=
  let len := Z.of_nat (length msg) in
  let zeros := Z.to_nat ((55 - len) mod 64) in
  msg ++ [128] ++ repeat 0 zeros ++ be_octets 8 (8 * len).

Fixpoint words (bs : list Z) : list Z :=
  match bs with
  | b0 :: b1 :: b2 :: b3 :: rest =>
      Z.lor (Z.shiftl b0 24) (Z.lor (Z.shiftl b1 16) (Z.lor (Z.shiftl b2 8) b3))
      :: words rest
  | _ => []
  end.

Fixpoint blocks (n : nat) (ws : list Z) (h : regs) : regs :=
  match n with
  | O => h
  | S n' => blocks n' (skipn 16 ws) (compress h (firstn 16 ws))
  end.

Definition word_octets (x : Z) : Buffer.t := map Buffer.octet (be_octets 4 x).

Definition digest (h : regs) : Buffer.t :=
  word_octets (ra h) ++ word_octets (rb h) ++ word_octets (rc h) ++ word_octets (rd h)
  ++ word_octets (re h) ++ word_octets (rf h) ++ word_octets (rg h) ++ word_octets (rh h).

Definition hash (msg : Buffer.t) : Buffer.t :=
  let ws := words (pad (map Buffer.value msg)) in
  digest (blocks (Nat.div (length ws) 16) ws initial).

End SHA256.

(** HMAC as in RFC 2104 with SHA-256 (block size 64 octets). *)
Module HMAC.

Definition block_size : nat := 64%nat.

Definition block_key (key : Buffer.t) : Buffer.t :=
  let k := if (Nat.ltb block_size (length key)) then SHA256.hash key else key in
  k ++ repeat x00 (block_size - length k)%nat.

Definition xor_with (c : Z) (k : Buffer.t) : Buffer.t :=
  map (fun x => Buffer.octet (Z.lxor (Buffer.value x) c)) k.

Definition sha256 (key data : Buffer.t) : Buffer.t :=
  let k := block_key key in
  SHA256.hash (xor_with 92 k ++ SHA256.hash (xor_with 54 k ++ data)).

End HMAC.

(* ===================================================================== *)
(** ** JavaScript values, exceptions and effects                          *)
(* ===================================================================== *)

Module JS.

(** The values the services handle: what [JSON.parse] returns, plus
    [undefined]. An object is its list of own properties in insertion
    order. *)
Inductive value : Type :=
| Undefined
| Null
| Bool (b : bool)
| Num (n : Z)
| Str (s : string)
| Arr (items : list value)
| Obj (props : list (string * value)).

(** What a [throw] carries: an [Error] object (its class name and its
    [message]) or any other value. *)
Inductive exn : Type :=
| Error (name : string) (message : string)
| Raised (v : value).

Definition instanceof_Error (e : exn) : bool :=
  match e with Error _ _ => true | Raised _ => false end.

Definition message_of (e : exn) : string :=
  match e with Error _ m => m | Raised _ => EmptyString end.

(** The outcome of evaluating an expression or of awaiting a promise. *)
Inductive completion (A : Type) : Type :=
| Normal (a : A)
| Throw (e : exn).
Arguments Normal {A} a.
Arguments Throw {A} e.

(** [!v] is [negb (truthy v)]. *)
Definition truthy (v : value) : bool :=
  match v with
  | Undefined | Null => false
  | Bool b => b
  | Num n => negb (n =? 0)
  | Str s => negb (String.eqb s EmptyString)
  | Arr _ | Obj _ => true
  end.

(** A header read as [request.headers[name] as string]: the text, or
    [undefined] when the request has no such header. *)
Definition of_header (h : option string) : value :=
  match h with Some s => Str s | None => Undefined end.

(** [v as string], for a value that is one. *)
Definition as_string (v : value) : string :=
  match v with Str s => s | _ => EmptyString end.

Fixpoint assoc (k : string) (props : list (string * value)) : value :=
  match props with
  | [] => Undefined
  | (k', v) :: rest => if String.eqb k k' then v else assoc k rest
  end.

(** [o.k]: reading a property of [undefined] or [null] throws a
    [TypeError]; a property an object lacks reads as [undefined]. The
    built-in properties of strings, numbers and arrays are left out: the
    services read none. *)
Definition get (o : value) (k : string) : completion value :=
  match o with
  | Undefined =>
      Throw (Error "TypeError" ("Cannot read properties of undefined (reading '" +:+ k +:+ "')"))
  | Null =>
      Throw (Error "TypeError" ("Cannot read properties of null (reading '" +:+ k +:+ "')"))
  | Obj props => Normal (assoc k props)
  | _ => Normal Undefined
  end.

(** [const { k } = source]: destructuring [undefined] or [null] throws
    a [TypeError] of its own wording. *)
Definition destructure (source : string) (o : value) (k : string) : completion value :=
  match o with
  | Undefined =>
      Throw (Error "TypeError" ("Cannot destructure property '" +:+ k +:+ "' of '"
                                +:+ source +:+ "' as it is undefined."))
  | Null =>
      Throw (Error "TypeError" ("Cannot destructure property '" +:+ k +:+ "' of '"
                                +:+ source +:+ "' as it is null."))
  | _ => get o k
  end.

(** [v === "lit"] *)
Definition is_string (lit : string) (v : value) : bool :=
  match v with Str s => String.eqb s lit | _ => false end.

(** [v === n] *)
Definition is_number (n : Z) (v : value) : bool :=
  match v with Num m => m =? n | _ => false end.

(** [a || b] *)
Definition or_else (a b : value) : value := if truthy a then a else b.

(** [s.substring(n)] *)
Fixpoint substring_from (n : nat) (s : string) : string :=
  match n, s with
  | O, _ => s
  | S n', String _ rest => substring_from n' rest
  | S _, EmptyString => EmptyString
  end.

(** [s.startsWith(p)] *)
Definition startsWith (p s : string) : bool := String.prefix p s.

(** The double-quote character, for message texts that contain it. *)
Definition dquote : string := String (ascii_of_N 34) EmptyString.

(** Computations that read and change a state [S] and may throw: the
    state reached is kept when an exception passes through, as in
    JavaScript. *)
Definition M (S A : Type) : Type := S -> completion A * S.

Definition ret {S A} (a : A) : M S A := fun s => (Normal a, s).
Definition throw {S A} (e : exn) : M S A := fun s => (Throw e, s).
Definition lift {S A} (c : completion A) : M S A := fun s => (c, s).
Definition bind {S A B} (m : M S A) (k : A -> M S B) : M S B :=
  fun s =>
    match m s with
    | (Normal a, s') => k a s'
    | (Throw e, s') => (Throw e, s')
    end.
(** [try { body } catch (error) { handler }] *)
Definition try_catch {S A} (body : M S A) (handler : exn -> M S A) : M S A :=
  fun s =>
    match body s with
    | (Normal a, s') => (Normal a, s')
    | (Throw e, s') => handler e s'
    end.

End JS.

Import JS.

Notation "'let*' x ':=' m 'in' k" := (JS.bind m (fun x => k))
  (at level 10, x name, m at level 100, k at level 200).

(** [JSON.stringify] on these values: [undefined] has no text (a property
    holding it is left out, an array item holding it is written [null]). *)
Module JSON.

(** The text of a number.  A JavaScript number is a double: an integer
    is written with all its digits as long as it is a safe integer (at
    most 2^53 - 1 in absolute value); beyond, JavaScript writes the
    shortest digits that read back as the same double, and an exponent
    from 10^21 on.  [decimal] writes all digits, so it is the text
    JavaScript writes on safe integers only. *)
Definition decimal (n : Z) : string := NilZero.string_of_int (Z.to_int n).

Definition MAX_SAFE_INTEGER : Z := 9007199254740991.

(** The values all of whose numbers are safe integers: on them
    [stringify] below writes what [JSON.stringify] writes. *)
Fixpoint safe (v : value) : bool :=
  match v with
  | Num n => Z.abs n <=? MAX_SAFE_INTEGER
  | Arr items => forallb safe items
  | Obj props =>
      (fix all (ps : list (string * value)) : bool :=
         match ps with
         | [] => true
         | (_, x) :: rest => safe x && all rest
         end) props
  | _ => true
  end.

Definition backslash : string := String (ascii_of_N 92) EmptyString.

Definition unicode_escape (n : Z) : string :=
  backslash +:+ "u00"
  +:+ String (Buffer.hex_digit (n / 16)) (String (Buffer.hex_digit (n mod 16)) EmptyString).

Definition escape (c : ascii) : string :=
  let n := Z.of_N (N_of_ascii c) in
  if n =? 34 then backslash +:+ dquote
  else if n =? 92 then backslash +:+ backslash
  else if n =? 8 then backslash +:+ "b"
  else if n =? 9 then backslash +:+ "t"
  else if n =? 10 then backslash +:+ "n"
  else if n =? 12 then backslash +:+ "f"
  else if n =? 13 then backslash +:+ "r"
  else if n <? 32 then unicode_escape n
  else String c EmptyString.

Fixpoint escape_all (s : string) : string :=
  match s with
  | EmptyString => EmptyString
  | String c rest => escape c +:+ escape_all rest
  end.

Definition quote (s : string) : string := dquote +:+ escape_all s +:+ dquote.

Fixpoint join (l : list string) : string :=
  match l with
  | [] => EmptyString
  | [x] => x
  | x :: rest => x +:+ "," +:+ join rest
  end.

Fixpoint stringify (v : value) : option string :=
  match v with
  | Undefined => None
  | Null => Some "null"%string
  | Bool b => Some (if b then "true" else "false")%string
  | Num n => Some (decimal n)
  | Str s => Some (quote s)
  | Arr items =>
      Some ("[" +:+ join (map (fun x => match stringify x with
                                        | Some t => t
                                        | None => "null"%string
                                        end) items) +:+ "]")
  | Obj props =>
      let members :=
        (fix members (ps : list (string * value)) : list string :=
           match ps with
           | [] => []
           | (k, x) :: rest =>
               match stringify x with
               | Some t => (quote k +:+ ":" +:+ t) :: members rest
               | None => members rest
               end
           end) props in
      Some ("{" +:+ join members +:+ "}")
  end.

End JSON.

(** What the JavaScript runtime supplies to the services and the model
    takes as given. *)
Record Runtime := {
  JSON_parse : string -> completion value;
  randomUUID : string;
  (** [new Date().toISOString()], by the ordinal of the call *)
  toISOString : nat -> string
}.

(* ===================================================================== *)
(** ** src/shared/security.ts                                             *)
(* ===================================================================== *)

Module Security.

Record SignatureValidationResult := {
  valid : bool;
  error : option string
}.

Definition range_error : exn :=
  Error "RangeError" "Input buffers must have the same byte length".

(** [crypto.timingSafeEqual(a, b)] throws a [RangeError] when the two
    buffers differ in length and otherwise tells whether they hold the
    same octets. *)
Definition timingSafeEqual (a b : Buffer.t) : completion bool :=
  if Nat.eqb (length a) (length b) then Normal (Buffer.equal a b)
  else Throw range_error.

Definition invalid_format : SignatureValidationResult :=
  {| valid := false;
     error := Some ("Invalid signature format. Expected " +:+ dquote
                    +:+ "sha256=<hash>" +:+ dquote) |}.

Definition signature_mismatch : SignatureValidationResult :=
  {| valid := false;
     error := Some "Signature mismatch. Request may be tampered or secret is incorrect" |}.

Definition validation_error (e : exn) : SignatureValidationResult :=
  {| valid := false;
     error := Some ("Signature validation error: "
                    +:+ (if instanceof_Error e then message_of e else "Unknown error")) |}.

Definition is_valid : SignatureValidationResult := {| valid := true; error := None |}.

(** [crypto.createHmac('sha256', secret).update(rawBody).digest('hex')] *)
Definition expectedHash (rawBody : Buffer.t) (secret : string) : string :=
  Buffer.toString_hex (HMAC.sha256 (Buffer.from_string secret) rawBody).

(** The body of the [try] block. *)
Definition validate_try (rawBody : Buffer.t) (signature secret : string)
  : completion SignatureValidationResult :=
  if negb (truthy (Str signature)) || negb (startsWith "sha256=" signature)
  then Normal invalid_format
  else
    let receivedHash := substring_from 7 signature in
    match timingSafeEqual (Buffer.from_hex receivedHash)
                          (Buffer.from_hex (expectedHash rawBody secret)) with
    | Throw e => Throw e
    | Normal isValid =>
        if negb isValid then Normal signature_mismatch else Normal is_valid
    end.

Definition validateWebhookSignature (rawBody : Buffer.t) (signature secret : string)
  : completion SignatureValidationResult :=
  match validate_try rawBody signature secret with
  | Normal r => Normal r
  | Throw e => Normal (validation_error e)
  end.

End Security.

(* ===================================================================== *)
(** ** The broker channel as the services see it                          *)
(* ===================================================================== *)

(** A delivery handed to the consumer callback (amqplib's
    [ConsumeMessage]): its [content], and [properties.headers], which a
    publisher may leave out.  The retry counter is read from there
    [as number]. *)
Record ConsumeMessage := {
  content : Buffer.t;
  properties_headers : option (gmap string Z)
}.

(** What a service does, in the order it happens: [Publish m] when
    [messageQueue.publish(m)] is entered, [SendToQueue], [Prefetch],
    [Ack] and [Reject] for the calls of these names on the channel, and
    [Processor name event] when the processor [name] is entered. *)
Inductive Event : Type :=
| Publish (message : value)
| SendToQueue (queue : string) (messageBuffer : Buffer.t) (persistent : bool)
| Prefetch (count : Z)
| Ack (msg : ConsumeMessage)
| Reject (msg : ConsumeMessage) (requeue : bool)
| Processor (name : string) (event : value).

(** The amqplib channel a [MessageQueue] holds: how [sendToQueue]
    answers ([true], [false] when the write buffer is full, or an
    exception such as [IllegalOperationError: Channel closed]), and how
    [ack] and [reject] answer: both return nothing on an open channel
    and throw [IllegalOperationError] on one that is closing or closed.
    [close] does not clear the [channel] field and nothing clears it when
    the broker drops the channel, so the field may hold a closed one. *)
Record Channel := {
  sendToQueue_answer : string -> Buffer.t -> completion bool;
  ack_answer : completion unit;
  reject_answer : completion unit
}.

(** The mutable state of one service process: the [channel] field of its
    [MessageQueue] instance ([null] before [connect]) and what it has done
    so far. *)
Record World := {
  channel : option Channel;
  trace : list Event
}.

Definition emit (e : Event) : M World unit :=
  fun w => (Normal tt, {| channel := channel w; trace := trace w ++ [e] |}).

(** The events a computation adds when run from [w]. *)
Definition effects {A : Type} (m : M World A) (w : World) : list Event :=
  skipn (length (trace w)) (trace (snd (m w))).

(** The arguments of the calls of [messageQueue.publish] among some
    events. *)
Fixpoint publish_calls (events : list Event) : list value :=
  match events with
  | [] => []
  | Publish message :: rest => message :: publish_calls rest
  | _ :: rest => publish_calls rest
  end.

(* ===================================================================== *)
(** ** src/shared/queue.ts                                                *)
(* ===================================================================== *)

Module MessageQueue.

Record t := {
  queueName : string;
  rabbitmqUrl : string
}.

Definition not_initialized : exn :=
  Error "Error" "Channel not initialized. Call connect() first".

(** [Buffer.from(JSON.stringify(message))]: [Buffer.from] refuses
    [undefined]. *)
Definition Buffer_from (text : option string) : completion Buffer.t :=
  match text with
  | Some t => Normal (Buffer.from_string t)
  | None =>
      Throw (Error "TypeError"
               "The first argument must be of type string or an instance of Buffer")
  end.

(** [this.channel.sendToQueue(queue, buffer, { persistent: true, ... })] *)
Definition sendToQueue (ch : Channel) (queue : string) (messageBuffer : Buffer.t)
  : M World bool :=
  let* _ := emit (SendToQueue queue messageBuffer true) in
  lift (sendToQueue_answer ch queue messageBuffer).

Definition publish (self : t) (message : value) : M World bool :=
  let* _ := emit (Publish message) in
  fun w =>
    match channel w with
    | None => throw not_initialized w
    | Some ch =>
        try_catch
          (let* messageBuffer := lift (Buffer_from (JSON.stringify message)) in
           let* success := sendToQueue ch (queueName self) messageBuffer in
           let* _ := lift (get message "id") in
           ret success)
          (fun error =>
             let* _ := lift (get message "id") in
             throw error)
          w
    end.

(** [(msg.properties.headers?.["x-retry-count"] as number) || 0] *)
Definition retryCount (msg : ConsumeMessage) : Z :=
  let read :=
    match properties_headers msg with
    | None => None
    | Some headers => headers !! "x-retry-count"%string
    end in
  match read with
  | None => 0
  | Some n => if n =? 0 then 0 else n
  end.

(** [this.channel?.ack(msg)] and [this.channel?.reject(msg, requeue)]:
    nothing is called when the field is [null]; otherwise the call is
    made and throws what the channel throws. *)
Definition channel_ack (msg : ConsumeMessage) : M World unit :=
  fun w =>
    match channel w with
    | None => ret tt w
    | Some ch => (let* _ := emit (Ack msg) in lift (ack_answer ch)) w
    end.
Definition channel_reject (msg : ConsumeMessage) (requeue : bool) : M World unit :=
  fun w =>
    match channel w with
    | None => ret tt w
    | Some ch => (let* _ := emit (Reject msg requeue) in lift (reject_answer ch)) w
    end.

(** The callback [consume] registers with [channel.consume].  The [try]
    block holds the call of [ack], so an [ack] that throws is handled as
    a failed delivery; a [reject] that throws is inside the [catch]
    block and leaves the callback. *)
Definition on_message (rt : Runtime) (handler : value -> M World unit)
    (msg : option ConsumeMessage) : M World unit :=
  match msg with
  | None => ret tt
  | Some msg =>
      try_catch
        (let* message := lift (JSON_parse rt (Buffer.toString (content msg))) in
         let* _ := lift (get message "id") in
         let* _ := handler message in
         let* _ := channel_ack msg in
         let* _ := lift (get message "id") in
         ret tt)
        (fun error =>
           let retryCount := retryCount msg in
           if retryCount <? 3
           then channel_reject msg true
           else channel_reject msg false)
  end.

Definition consume (rt : Runtime) (self : t) (handler : value -> M World unit)
  : M World (option ConsumeMessage -> M World unit) :=
  fun w =>
    match channel w with
    | None => throw not_initialized w
    | Some _ => (let* _ := emit (Prefetch 1) in ret (on_message rt handler)) w
    end.

End MessageQueue.

(* ===================================================================== *)
(** ** src/worker/processors.ts and src/worker/index.ts                   *)
(* ===================================================================== *)

Module Worker.

(** [{ success: true, message_id: event.headers["x-discourse-event-id"]
    || "unknown", event_type: event.event_type, processed_at: ... }] *)
Definition processing_result (rt : Runtime) (event : value) : M World value :=
  let* headers := lift (get event "headers") in
  let* eventId := lift (get headers "x-discourse-event-id") in
  let* eventType := lift (get event "event_type") in
  ret (Obj [ ("success", Bool true);
             ("message_id", or_else eventId (Str "unknown"));
             ("event_type", eventType);
             ("processed_at", Str (toISOString rt 0)) ]%string).

Definition processUserEvent (rt : Runtime) (event : value) : M World value :=
  let* _ := emit (Processor "processUserEvent" event) in
  let* payload := lift (get event "payload") in
  let* user := lift (destructure "payload" payload "user") in
  let* _ := lift (get event "event_type") in
  let* _ := lift (get user "id") in
  let* _ := lift (get user "username") in
  let* _ := lift (get user "trust_level") in
  try_catch
    (let* _ := lift (get user "id") in
     let* _ := lift (get user "username") in
     processing_result rt event)
    (fun error =>
       let* _ := lift (get user "id") in
       throw error).

Definition processNotificationEvent (rt : Runtime) (event : value) : M World value :=
  let* _ := emit (Processor "processNotificationEvent" event) in
  let* payload := lift (get event "payload") in
  let* notification := lift (destructure "payload" payload "notification") in
  let* notification_type := lift (get notification "notification_type") in
  try_catch
    (let* _ :=
       (if is_number 1 notification_type then
        let* data := lift (get notification "data") in
        let* _ := lift (get data "original_username") in
        let* _ := lift (get data "topic_title") in
        ret tt
      else if is_number 2 notification_type then ret tt
      else if is_number 6 notification_type then
        let* data := lift (get notification "data") in
        let* _ := lift (get data "topic_title") in
        ret tt
      else if is_number 12 notification_type then
        let* data := lift (get notification "data") in
        let* _ := lift (get data "badge_name") in
        ret tt
      else ret tt) in
     processing_result rt event)
    (fun error => throw error).

Definition processGenericEvent (rt : Runtime) (event : value) : M World value :=
  let* _ := emit (Processor "processGenericEvent" event) in
  let* _ := lift (get event "event_type") in
  let* headers := lift (get event "headers") in
  let* _ := lift (get headers "x-discourse-event-id") in
  try_catch (processing_result rt event) (fun error => throw error).

Definition routeMessage (rt : Runtime) (message : value) : M World unit :=
  let* event := lift (get message "event") in
  let* eventType := lift (get event "event_type") in
  try_catch
    (if is_string "notification" eventType || is_string "notification_created" eventType
     then
       let* result := processNotificationEvent rt event in
       ret tt
     else ret tt)
    (fun error => throw error).

End Worker.

(* ===================================================================== *)
(** ** The webhook handler: [app.post("/webhook", ...)]                   *)
(* ===================================================================== *)

Module Handler.

Record HandlerConfig := {
  discourseWebhookSecret : string;
  queue : MessageQueue.t
}.

(** The parts of a Fastify request the route reads: the header table
    and the raw body the content-type parser stored, if it ran. *)
Record FastifyRequest := {
  headers : gmap string string;
  rawBody : option Buffer.t
}.

Record Reply := {
  code : Z;
  body : value
}.

(** The handler treats a header as missing when it is absent or empty
    ([!signature], [!eventType]); a request carries it otherwise. *)
Definition carries (request : FastifyRequest) (name : string) : bool :=
  truthy (of_header (headers request !! name)).

Definition error_reply (status : Z) (error message : string) : Reply :=
  {| code := status; body := Obj [("error", Str error); ("message", Str message)]%string |}.

Definition queued_reply (message_id : value) : Reply :=
  {| code := 200;
     body := Obj [("status", Str "queued"); ("message_id", message_id)]%string |}.

Definition webhook (rt : Runtime) (config : HandlerConfig) (request : FastifyRequest)
  : M World Reply :=
  try_catch
    (let signature := of_header (headers request !! "x-discourse-event-signature"%string) in
     let eventType := of_header (headers request !! "x-discourse-event"%string) in
     let eventId := of_header (headers request !! "x-discourse-event-id"%string) in
     let instance := of_header (headers request !! "x-discourse-instance"%string) in
     if negb (truthy signature) then
       ret (error_reply 400 "Bad Request" "Missing X-Discourse-Event-Signature header")
     else if negb (truthy eventType) then
       ret (error_reply 400 "Bad Request" "Missing X-Discourse-Event header")
     else
       match rawBody request with
       | None =>
           ret (error_reply 500 "Internal Server Error" "Raw body not available")
       | Some rawBody =>
           let* validationResult :=
             lift (Security.validateWebhookSignature rawBody
                     (as_string signature) (discourseWebhookSecret config)) in
           if negb (Security.valid validationResult) then
             ret (error_reply 403 "Forbidden" "Invalid signature")
           else
             let* payload := lift (JSON_parse rt (Buffer.toString rawBody)) in
             let webhookEvent :=
               Obj [ ("event_type", eventType);
                     ("payload", payload);
                     ("headers",
                      Obj [ ("x-discourse-event", eventType);
                            ("x-discourse-event-signature", signature);
                            ("x-discourse-event-id", eventId);
                            ("x-discourse-instance", instance) ]);
                     ("received_at", Str (toISOString rt 0)) ]%string in
             let queueMessage :=
               Obj [ ("id", Str (randomUUID rt));
                     ("event", webhookEvent);
                     ("timestamp", Str (toISOString rt 1));
                     ("retry_count", Num 0) ]%string in
             let* published := MessageQueue.publish (queue config) queueMessage in
             if negb published then
               ret (error_reply 503 "Service Unavailable" "Queue is full or unavailable")
             else
               let* message_id := lift (get queueMessage "id") in
               ret (queued_reply message_id)
       end)
    (fun error =>
       ret (error_reply 500 "Internal Server Error" "Failed to process webhook")).

End Handler.

(* ===================================================================== *)
(** ** The broker's side of a delivery                                    *)
(* ===================================================================== *)

(** The queue as AMQP 0-9-1 defines it for one consumer with prefetch 1
    on a channel that stays open, so that each [ack] and [reject] the
    consumer calls reaches the broker:
    the head of the ready messages is delivered; [ack] removes it;
    [reject] with [requeue] puts the rejected message back as it is, at
    its place at the head; [reject] without [requeue] discards it (to the
    dead-letter exchange when one is configured). *)
Module Broker.

Record t := {
  ready : list ConsumeMessage;
  dead_lettered : list ConsumeMessage
}.

(** The first acknowledgement or rejection among the events of one
    callback run. *)
Fixpoint settlement (events : list Event) : option Event :=
  match events with
  | [] => None
  | Ack m :: _ => Some (Ack m)
  | Reject m r :: _ => Some (Reject m r)
  | _ :: rest => settlement rest
  end.

Definition deliver (callback : option ConsumeMessage -> M World unit)
    (b : t) (w : World) : t * World :=
  match ready b with
  | [] => (b, w)
  | msg :: rest =>
      let w' := snd (callback (Some msg) w) in
      match settlement (effects (callback (Some msg)) w) with
      | Some (Ack _) => ({| ready := rest; dead_lettered := dead_lettered b |}, w')
      | Some (Reject m true) =>
          ({| ready := m :: rest; dead_lettered := dead_lettered b |}, w')
      | Some (Reject m false) =>
          ({| ready := rest; dead_lettered := dead_lettered b ++ [m] |}, w')
      | _ => (b, w')
      end
  end.

Fixpoint run (n : nat) (callback : option ConsumeMessage -> M World unit)
    (b : t) (w : World) : t * World :=
  match n with
  | O => (b, w)
  | S n' => let '(b', w') := deliver callback b w in run n' callback b' w'
  end.

(** The messages handed to the consumer in the first [n] deliveries. *)
Fixpoint delivered (n : nat) (callback : option ConsumeMessage -> M World unit)
    (b : t) (w : World) : list ConsumeMessage :=
  match n with
  | O => []
  | S n' =>
      match ready b with
      | [] => []
      | msg :: _ =>
          let '(b', w') := deliver callback b w in
          msg :: delivered n' callback b' w'
      end
  end.

End Broker.

(* ===================================================================== *)
(** ** A concrete deployment, used to run the code on explicit inputs     *)
(* ===================================================================== *)

Module Scenario.

Definition secret : string := "topsecret".
Definition rawBody : Buffer.t := Buffer.from_string "{}".
(** "sha256=" and the hexadecimal HMAC-SHA256 of [rawBody] under
    [secret]. *)
Definition signature : string :=
  "sha256=08525245d41d96cd1b6a931e7f3f580edda83032a233e8c36a5130565e6efa53".

Definition config : Handler.HandlerConfig :=
  {| Handler.discourseWebhookSecret := secret;
     Handler.queue := {| MessageQueue.queueName := "discourse-events";
                         MessageQueue.rabbitmqUrl := "amqp://localhost:5672" |} |}.

(** POST /webhook with [X-Discourse-Event: notification], the matching
    signature and the body [{}]. *)
Definition request : Handler.FastifyRequest :=
  {| Handler.headers :=
       {[ "x-discourse-event-signature"%string := signature;
          "x-discourse-event"%string := "notification"%string ]};
     Handler.rawBody := Some rawBody |}.

Definition uuid : string := "0b0e7a3c-5d1f-4c3a-9a59-2f6f1c1d7e11".
Definition instant : string := "2024-01-01T00:00:00.000Z".

(** The envelope the handler builds for [request], and the same value
    after a trip through [JSON.stringify] and [JSON.parse], which drops
    the two header fields that are [undefined]. *)
Definition envelope : value :=
  Obj [ ("id", Str uuid);
        ("event",
         Obj [ ("event_type", Str "notification");
               ("payload", Obj []);
               ("headers",
                Obj [ ("x-discourse-event", Str "notification");
                      ("x-discourse-event-signature", Str signature);
                      ("x-discourse-event-id", Undefined);
                      ("x-discourse-instance", Undefined) ]);
               ("received_at", Str instant) ]);
        ("timestamp", Str instant);
        ("retry_count", Num 0) ]%string.

Definition event_received : value :=
  Obj [ ("event_type", Str "notification");
        ("payload", Obj []);
        ("headers",
         Obj [ ("x-discourse-event", Str "notification");
               ("x-discourse-event-signature", Str signature) ]);
        ("received_at", Str instant) ]%string.

Definition envelope_received : value :=
  Obj [ ("id", Str uuid);
        ("event", event_received);
        ("timestamp", Str instant);
        ("retry_count", Num 0) ]%string.

Definition envelope_text : string :=
  match JSON.stringify envelope with Some t => t | None => EmptyString end.

(** An envelope of an event type the router does not know. *)
Definition user_event : value :=
  Obj [ ("event_type", Str "user_created");
        ("payload", Obj []);
        ("headers",
         Obj [ ("x-discourse-event", Str "user_created");
               ("x-discourse-event-signature", Str signature) ]);
        ("received_at", Str instant) ]%string.

Definition user_envelope : value :=
  Obj [ ("id", Str "7c9e6679-7425-40de-944b-e07fc1f90ae7");
        ("event", user_event);
        ("timestamp", Str instant);
        ("retry_count", Num 0) ]%string.

Definition user_envelope_text : string :=
  match JSON.stringify user_envelope with Some t => t | None => EmptyString end.

(** A runtime whose [JSON.parse] is given on the three texts the
    scenario parses and refuses every other text. *)
Definition runtime : Runtime :=
  {| JSON_parse := fun text =>
       if String.eqb text "{}" then Normal (Obj [])
       else if String.eqb text envelope_text then Normal envelope_received
       else if String.eqb text user_envelope_text then Normal user_envelope
       else Throw (Error "SyntaxError" "Unexpected token");
     randomUUID := uuid;
     toISOString := fun _ => instant |}.

Definition accepting : Channel :=
  {| sendToQueue_answer := fun _ _ => Normal true;
     ack_answer := Normal tt;
     reject_answer := Normal tt |}.
Definition saturated : Channel :=
  {| sendToQueue_answer := fun _ _ => Normal false;
     ack_answer := Normal tt;
     reject_answer := Normal tt |}.
Definition channel_closed : exn := Error "IllegalOperationError" "Channel closed".
Definition closed : Channel :=
  {| sendToQueue_answer := fun _ _ => Throw channel_closed;
     ack_answer := Throw channel_closed;
     reject_answer := Throw channel_closed |}.

Definition connected (ch : Channel) : World := {| channel := Some ch; trace := [] |}.
Definition never_connected : World := {| channel := None; trace := [] |}.

(** The delivery of [envelope] as published by [MessageQueue.publish],
    which sets no headers. *)
Definition delivery : ConsumeMessage :=
  {| content := Buffer.from_string envelope_text; properties_headers := Some ∅ |}.

(** The same delivery as a publisher that counts retries would send it
    after three of them. *)
Definition exhausted_delivery : ConsumeMessage :=
  {| content := Buffer.from_string envelope_text;
     properties_headers := Some {[ "x-retry-count"%string := 3 ]} |}.

Definition user_delivery : ConsumeMessage :=
  {| content := Buffer.from_string user_envelope_text; properties_headers := None |}.

Definition callback : option ConsumeMessage -> M World unit :=
  MessageQueue.on_message runtime (Worker.routeMessage runtime).

(** The queue holding that one delivery, and what one failed run of
    the callback on it does. *)
Definition queued : Broker.t :=
  {| Broker.ready := [delivery]; Broker.dead_lettered := [] |}.

Definition failed_attempt : list Event :=
  [ Processor "processNotificationEvent" event_received; Reject delivery true ].

End Scenario.

(* ===================================================================== *)
(** ** Connecting and closing: the rest of src/shared/queue.ts            *)
(* ===================================================================== *)

(** A connection handle as [amqp.connect] returns it. *)
Record Connection := {
  connected_to : string
}.

(** How amqplib answers the calls made while connecting and closing. *)
Record Amqp := {
  connect_answer : string -> completion Connection;
  createChannel_answer : Connection -> completion Channel;
  assertQueue_answer : string -> completion unit;
  prefetch_answer : completion unit;
  consume_answer : string -> completion unit;
  channel_close_answer : completion unit;
  connection_close_answer : completion unit
}.

(** The calls on the library and on the connection, in order. *)
Inductive Call : Type :=
| Connect (url : string)
| CreateChannel
| AssertQueue (queue : string) (durable : bool) (message_ttl max_length : Z)
| OnConnection (event : string)
| Consume (queue : string) (noAck : bool)
| CloseChannel
| CloseConnection.

(** A [MessageQueue] instance with both of its mutable fields: the
    [connection], and the [channel] kept in the process state. *)
Record Client := {
  connection : option Connection;
  process : World;
  calls : list Call
}.

Module Lifecycle.

Definition call (c : Call) : M Client unit :=
  fun s => (Normal tt,
            {| connection := connection s; process := process s; calls := calls s ++ [c] |}).

(** [this.connection = conn] and [this.channel = ch] *)
Definition set_connection (conn : Connection) : M Client unit :=
  fun s => (Normal tt,
            {| connection := Some conn; process := process s; calls := calls s |}).
Definition set_channel (ch : Channel) : M Client unit :=
  fun s => (Normal tt,
            {| connection := connection s;
               process := {| channel := Some ch; trace := trace (process s) |};
               calls := calls s |}).

(** Running a computation of the process inside the client. *)
Definition in_process {A : Type} (m : M World A) : M Client A :=
  fun s => (fst (m (process s)),
            {| connection := connection s; process := snd (m (process s));
               calls := calls s |}).

Definition connect (lib : Amqp) (self : MessageQueue.t) : M Client unit :=
  try_catch
    (let* _ := call (Connect (MessageQueue.rabbitmqUrl self)) in
     let* conn := lift (connect_answer lib (MessageQueue.rabbitmqUrl self)) in
     let* _ := set_connection conn in
     let* _ := call CreateChannel in
     let* ch := lift (createChannel_answer lib conn) in
     let* _ := set_channel ch in
     let* _ := call (AssertQueue (MessageQueue.queueName self) true 86400000 100000) in
     let* _ := lift (assertQueue_answer lib (MessageQueue.queueName self)) in
     let* _ := call (OnConnection "error") in
     let* _ := call (OnConnection "close") in
     ret tt)
    (fun error => throw error).

(** [await this.channel?.close()] and [await this.connection?.close()] *)
Definition close_channel (lib : Amqp) : M Client unit :=
  fun s =>
    match channel (process s) with
    | None => ret tt s
    | Some _ => (let* _ := call CloseChannel in lift (channel_close_answer lib)) s
    end.
Definition close_connection (lib : Amqp) : M Client unit :=
  fun s =>
    match connection s with
    | None => ret tt s
    | Some _ => (let* _ := call CloseConnection in lift (connection_close_answer lib)) s
    end.

Definition close (lib : Amqp) : M Client unit :=
  try_catch
    (let* _ := close_channel lib in
     let* _ := close_connection lib in
     ret tt)
    (fun error => ret tt).

Definition isConnected (s : Client) : bool :=
  match connection s, channel (process s) with
  | Some _, Some _ => true
  | _, _ => false
  end.

(** [consume] with the answers of the channel: [channel.prefetch(1)]
    and [channel.consume(queue, callback, { noAck: false })] may both
    fail; [MessageQueue.consume] is the case where neither does. *)
Definition consume (lib : Amqp) (rt : Runtime) (self : MessageQueue.t)
    (handler : value -> M World unit)
  : M Client (option ConsumeMessage -> M World unit) :=
  fun s =>
    match channel (process s) with
    | None => throw MessageQueue.not_initialized s
    | Some _ =>
        (let* _ := in_process (emit (Prefetch 1)) in
         let* _ := lift (prefetch_answer lib) in
         let* _ := call (Consume (MessageQueue.queueName self) false) in
         let* _ := lift (consume_answer lib (MessageQueue.queueName self)) in
         ret (MessageQueue.on_message rt handler)) s
    end.

End Lifecycle.

(* ===================================================================== *)
(** ** Starting and stopping the services, and the health route           *)
(* ===================================================================== *)

Module Service.

(** What [start] leaves behind: the consumer callback it registered, or
    the code it passed to [process.exit]. *)
Inductive Started : Type :=
| Consuming (callback : option ConsumeMessage -> M World unit)
| Exited (code : Z).

(** [start] of src/worker/index.ts *)
Definition worker_start (lib : Amqp) (rt : Runtime) (self : MessageQueue.t)
  : M Client Started :=
  try_catch
    (let* _ := Lifecycle.connect lib self in
     let* callback := Lifecycle.consume lib rt self (Worker.routeMessage rt) in
     ret (Consuming callback))
    (fun error => ret (Exited 1)).

(** [shutdown] of src/worker/index.ts: the code passed to
    [process.exit]. *)
Definition worker_shutdown (lib : Amqp) : M Client Z :=
  try_catch
    (let* _ := Lifecycle.close lib in
     ret 0)
    (fun error => ret 1).

(** [shutdown] of the webhook handler; [app_close] is the answer of
    Fastify's [app.close()]. *)
Definition handler_shutdown (lib : Amqp) (app_close : completion unit) : M Client Z :=
  try_catch
    (let* _ := lift app_close in
     let* _ := Lifecycle.close lib in
     ret 0)
    (fun error => ret 1).

(** [app.get("/health", ...)] *)
Definition health (rt : Runtime) (s : Client) : Handler.Reply :=
  let isQueueConnected := Lifecycle.isConnected s in
  let status := if isQueueConnected then "healthy"%string else "degraded"%string in
  let statusCode := if isQueueConnected then 200 else 503 in
  {| Handler.code := statusCode;
     Handler.body := Obj [ ("status", Str status);
                           ("service", Str "discourse-webhook-handler");
                           ("queue_connected", Bool isQueueConnected);
                           ("timestamp", Str (toISOString rt 0)) ]%string |}.

End Service.

(* ===================================================================== *)
(** ** Configuration from the environment                                 *)
(* ===================================================================== *)

(** [process.env.NAME || fallback]: an unset or empty variable gives the
    fallback. *)
Definition env_or (env : gmap string string) (name fallback : string) : string :=
  as_string (or_else (of_header (env !! name)) (Str fallback)).

(** The handler's configuration; [parseInt] is the runtime's, with radix
    10, and [P] the numbers it returns. *)
Module HandlerSettings.

Record HandlerConfig (P : Type) := {
  discourseWebhookSecret : string;
  rabbitmqUrl : string;
  queueName : string;
  port : P;
  logLevel : string
}.
Arguments discourseWebhookSecret {P} _.
Arguments rabbitmqUrl {P} _.
Arguments queueName {P} _.
Arguments port {P} _.
Arguments logLevel {P} _.

Definition default_secret : string := "change_me_in_production".

Definition default_secret_warning : string :=
  "WARNING: Using default webhook secret. Set DISCOURSE_WEBHOOK_SECRET in production!".

(** The configuration and what [console.warn] printed. *)
Definition getHandlerConfig {P : Type} (parseInt : string -> P)
    (env : gmap string string) : HandlerConfig P * list string :=
  let config :=
    {| discourseWebhookSecret := env_or env "DISCOURSE_WEBHOOK_SECRET" default_secret;
       rabbitmqUrl := env_or env "RABBITMQ_URL" "amqp://localhost:5672";
       queueName := env_or env "QUEUE_NAME" "discourse-events";
       port := parseInt (env_or env "HANDLER_PORT" "3000");
       logLevel := env_or env "LOG_LEVEL" "info" |} in
  (config,
   if String.eqb (discourseWebhookSecret config) default_secret
   then [default_secret_warning] else []).

(** The module-level wiring of the handler: the secret the route
    validates against and [new MessageQueue(config.queueName,
    config.rabbitmqUrl)]. *)
Definition wiring {P : Type} (config : HandlerConfig P) : Handler.HandlerConfig :=
  {| Handler.discourseWebhookSecret := discourseWebhookSecret config;
     Handler.queue := {| MessageQueue.queueName := queueName config;
                         MessageQueue.rabbitmqUrl := rabbitmqUrl config |} |}.

End HandlerSettings.

Module WorkerSettings.

Record WorkerConfig (P : Type) := {
  rabbitmqUrl : string;
  queueName : string;
  logLevel : string;
  concurrency : P
}.
Arguments rabbitmqUrl {P} _.
Arguments queueName {P} _.
Arguments logLevel {P} _.
Arguments concurrency {P} _.

Definition getWorkerConfig {P : Type} (parseInt : string -> P)
    (env : gmap string string) : WorkerConfig P :=
  {| rabbitmqUrl := env_or env "RABBITMQ_URL" "amqp://localhost:5672";
     queueName := env_or env "QUEUE_NAME" "discourse-events";
     logLevel := env_or env "LOG_LEVEL" "info";
     concurrency := parseInt (env_or env "WORKER_CONCURRENCY" "1") |}.

(** [new MessageQueue(config.queueName, config.rabbitmqUrl)] *)
Definition wiring {P : Type} (config : WorkerConfig P) : MessageQueue.t :=
  {| MessageQueue.queueName := queueName config;
     MessageQueue.rabbitmqUrl := rabbitmqUrl config |}.

End WorkerSettings.

(* ===================================================================== *)
(** ** Further concrete inputs                                            *)
(* ===================================================================== *)

Module Cases.

(** A correctly signed request whose body is not JSON. *)
Definition unparsable_body : Buffer.t := Buffer.from_string "not json".

Definition unparsable_request : Handler.FastifyRequest :=
  {| Handler.headers :=
       {[ "x-discourse-event-signature"%string :=
            ("sha256=" +:+ Security.expectedHash unparsable_body Scenario.secret)%string;
          "x-discourse-event"%string := "user_created"%string ]};
     Handler.rawBody := Some unparsable_body |}.

(** A delivery whose content is not JSON. *)
Definition unparsable_delivery : ConsumeMessage :=
  {| content := unparsable_body; properties_headers := None |}.

(** A mention notification as Discourse sends it, and its event. *)
Definition mention : value :=
  Obj [ ("notification",
         Obj [ ("id", Num 7);
               ("user_id", Num 1);
               ("notification_type", Num 1);
               ("read", Bool false);
               ("data", Obj [ ("original_username", Str "bob");
                              ("topic_title", Str "Welcome") ]) ]) ]%string.

Definition mention_event : value :=
  Obj [ ("event_type", Str "notification");
        ("payload", mention);
        ("headers",
         Obj [ ("x-discourse-event", Str "notification");
               ("x-discourse-event-signature", Str Scenario.signature);
               ("x-discourse-event-id", Str "42") ]);
        ("received_at", Str Scenario.instant) ]%string.

Definition mention_envelope : value :=
  Obj [ ("id", Str Scenario.uuid);
        ("event", mention_event);
        ("timestamp", Str Scenario.instant);
        ("retry_count", Num 0) ]%string.

(** A user event with its payload. *)
Definition user_created_event : value :=
  Obj [ ("event_type", Str "user_created");
        ("payload",
         Obj [ ("user", Obj [ ("id", Num 1); ("username", Str "test");
                              ("trust_level", Num 0) ]) ]);
        ("headers",
         Obj [ ("x-discourse-event", Str "user_created");
               ("x-discourse-event-signature", Str Scenario.signature) ]);
        ("received_at", Str Scenario.instant) ]%string.

(** A broker library that answers every call, one that refuses the
    connection, and one whose channel fails to close. *)
Definition link : Connection := {| connected_to := "amqp://localhost:5672" |}.

Definition healthy : Amqp :=
  {| connect_answer := fun _ => Normal link;
     createChannel_answer := fun _ => Normal Scenario.accepting;
     assertQueue_answer := fun _ => Normal tt;
     prefetch_answer := Normal tt;
     consume_answer := fun _ => Normal tt;
     channel_close_answer := Normal tt;
     connection_close_answer := Normal tt |}.

Definition refused : exn := Error "Error" "connect ECONNREFUSED 127.0.0.1:5672".

Definition unreachable : Amqp :=
  {| connect_answer := fun _ => Throw refused;
     createChannel_answer := fun _ => Normal Scenario.accepting;
     assertQueue_answer := fun _ => Normal tt;
     prefetch_answer := Normal tt;
     consume_answer := fun _ => Normal tt;
     channel_close_answer := Normal tt;
     connection_close_answer := Normal tt |}.

Definition precondition_failed : exn :=
  Error "Error" "Operation failed: QueueDeclare; 406 (PRECONDITION-FAILED)".

Definition mismatched_queue : Amqp :=
  {| connect_answer := fun _ => Normal link;
     createChannel_answer := fun _ => Normal Scenario.accepting;
     assertQueue_answer := fun _ => Throw precondition_failed;
     prefetch_answer := Normal tt;
     consume_answer := fun _ => Normal tt;
     channel_close_answer := Normal tt;
     connection_close_answer := Normal tt |}.

Definition channel_lost : exn := Error "IllegalOperationError" "Channel closed".

Definition no_channel : Amqp :=
  {| connect_answer := fun _ => Normal link;
     createChannel_answer := fun _ => Throw channel_lost;
     assertQueue_answer := fun _ => Normal tt;
     prefetch_answer := Normal tt;
     consume_answer := fun _ => Normal tt;
     channel_close_answer := Normal tt;
     connection_close_answer := Normal tt |}.

Definition stuck_channel : Amqp :=
  {| connect_answer := fun _ => Normal link;
     createChannel_answer := fun _ => Normal Scenario.accepting;
     assertQueue_answer := fun _ => Normal tt;
     prefetch_answer := Normal tt;
     consume_answer := fun _ => Normal tt;
     channel_close_answer := Throw channel_lost;
     connection_close_answer := Normal tt |}.

(** A client before [connect], and one after a successful [connect]. *)
Definition fresh : Client :=
  {| connection := None; process := Scenario.never_connected; calls := [] |}.

Definition live : Client :=
  {| connection := Some link;
     process := Scenario.connected Scenario.accepting;
     calls := [] |}.

Definition queue : MessageQueue.t := Handler.queue Scenario.config.

End Cases.

(* ===================================================================== *)
(** ** Vocabulary of the properties                                       *)
(* ===================================================================== *)

(** Text with its letters a to z in upper case. *)
Definition upper_char (c : ascii) : ascii :=
  let n := Z.of_N (N_of_ascii c) in
  if (97 <=? n) && (n <=? 122) then ascii_of_N (Z.to_N (n - 32)) else c.

Fixpoint uppercase (s : string) : string :=
  match s with
  | EmptyString => EmptyString
  | String c rest => String (upper_char c) (uppercase rest)
  end.

(** [undefined] and [null], the values a property cannot be read from. *)
Definition nullish (v : value) : bool :=
  match v with Undefined | Null => true | _ => false end.

(** [o.k] where it can be read, [undefined] where reading it throws. *)
Definition read (o : value) (k : string) : value :=
  match get o k with Normal v => v | Throw _ => Undefined end.

(** What a processor reports for an event it has processed. *)
Definition reported (rt : Runtime) (event : value) : value :=
  Obj [ ("success", Bool true);
        ("message_id",
         or_else (read (read event "headers") "x-discourse-event-id") (Str "unknown"));
        ("event_type", read event "event_type");
        ("processed_at", Str (toISOString rt 0)) ]%string.

(** A completion with its value dropped: what [await f(x)] leaves when
    the result is not used. *)
Definition discard {A : Type} (c : completion A) : completion unit :=
  match c with Normal _ => Normal tt | Throw e => Throw e end.

(* ===================================================================== *)
(** * Properties                                                          *)
(* ===================================================================== *)

Example sha256_abc :
  Buffer.toString_hex (SHA256.hash (Buffer.from_string "abc"))
  = "ba7816bf8f01cfea414140de5dae2223b00361a396177a9cb410ff61f20015ad"%string.
Proof. vm_compute. reflexivity. Qed.

Example hmac_rfc4231_case2 :
  Buffer.toString_hex
    (HMAC.sha256 (Buffer.from_string "Jefe")
       (Buffer.from_string "what do ya want for nothing?"))
  = "5bdcc146bf60754e6a042426089575c75a003f089d2739839dec58b964ec3843"%string.
Proof. vm_compute. reflexivity. Qed.

Example sha256_empty :
  Buffer.toString_hex (SHA256.hash [])
  = "e3b0c44298fc1c149afbf4c8996fb92427ae41e4649b934ca495991b7852b855"%string.
Proof. vm_compute. reflexivity. Qed.

(** A message of 120 octets, which pads to three blocks. *)
Example sha256_three_blocks :
  Buffer.toString_hex (SHA256.hash (repeat x61 120))
  = "2f3d335432c70b580af0e8e1b3674a7c020d683aa5f73aaaedfdc55af904c21c"%string.
Proof. vm_compute. reflexivity. Qed.

(** A key longer than a block is hashed first; an empty key is allowed. *)
Example hmac_long_key :
  Buffer.toString_hex (HMAC.sha256 (repeat x6b 100) (Buffer.from_string "{}"))
  = "b689e50e5ba4b695d078582251ed84fc1aaacf2dc1dc876a3ad2168121d097c9"%string.
Proof. vm_compute. reflexivity. Qed.

Example hmac_empty_key :
  Buffer.toString_hex (HMAC.sha256 [] (Buffer.from_string "{}"))
  = "22f8eea909400af98adf3681a9f31923ef6b7fcba4abb553d92823a3e9d5c25e"%string.
Proof. vm_compute. reflexivity. Qed.

(* --------------------------------------------------------------------- *)
(** ** Hexadecimal text and buffers                                       *)
(* --------------------------------------------------------------------- *)

Lemma from_hex_pair (x : byte) (rest : string) :
  Buffer.from_hex
    (String (Buffer.hex_digit (Buffer.value x / 16))
       (String (Buffer.hex_digit (Buffer.value x mod 16)) rest))
  = x :: Buffer.from_hex rest.
Proof. destruct x; reflexivity. Qed.

(** Decoding the hexadecimal text of a buffer gives the buffer back. *)
Lemma from_hex_toString_hex (b : Buffer.t) :
  Buffer.from_hex (Buffer.toString_hex b) = b.
Proof.
  induction b as [|x b IH]; [reflexivity|].
  cbn [Buffer.toString_hex]. rewrite from_hex_pair. now rewrite IH.
Qed.

Lemma equal_spec (a b : Buffer.t) : Buffer.equal a b = true <-> a = b.
Proof.
  revert b. induction a as [|x a IH]; intros [|y b]; cbn; try easy.
  unfold Buffer.byte_eqb. rewrite andb_true_iff, IH. split.
  - intros [Hxy ->]. apply Byte.byte_dec_bl in Hxy. now subst.
  - intros [= -> ->]. split; [now apply Byte.byte_dec_lb | reflexivity].
Qed.





(* --------------------------------------------------------------------- *)
(** ** The digest                                                         *)
(* --------------------------------------------------------------------- *)

Lemma hash_length (msg : Buffer.t) : length (SHA256.hash msg) = 32%nat.
Proof. reflexivity. Qed.

Lemma hmac_length (key data : Buffer.t) : length (HMAC.sha256 key data) = 32%nat.
Proof. apply hash_length. Qed.

(* --------------------------------------------------------------------- *)
(** ** validateWebhookSignature                                           *)
(* --------------------------------------------------------------------- *)

Lemma startsWith_prefixed (hex : string) :
  startsWith "sha256=" ("sha256=" +:+ hex) = true.
Proof. destruct hex; reflexivity. Qed.

(** On a header that has the prefix, the [try] block is the comparison of
    the decoded digest with the computed one. *)
Lemma validate_try_prefixed (B : Buffer.t) (S hex : string) :
  Security.validate_try B ("sha256=" +:+ hex) S =
  match Security.timingSafeEqual (Buffer.from_hex hex)
                                 (HMAC.sha256 (Buffer.from_string S) B) with
  | Throw e => Throw e
  | Normal isValid =>
      if negb isValid then Normal Security.signature_mismatch
      else Normal Security.is_valid
  end.
Proof.
  unfold Security.validate_try. rewrite startsWith_prefixed.
  unfold Security.expectedHash. rewrite from_hex_toString_hex. reflexivity.
Qed.

Lemma timingSafeEqual_same (a : Buffer.t) :
  Security.timingSafeEqual a a = Normal true.
Proof.
  unfold Security.timingSafeEqual. rewrite Nat.eqb_refl.
  f_equal. now apply equal_spec.
Qed.


Lemma timingSafeEqual_lengths (a b : Buffer.t) :
  length a <> length b -> Security.timingSafeEqual a b = Throw Security.range_error.
Proof.
  intros Hlen. unfold Security.timingSafeEqual.
  apply Nat.eqb_neq in Hlen. now rewrite Hlen.
Qed.

(** C3. For every raw body [B] and secret [S], the validator called with
    the header "sha256=" followed by the lowercase hexadecimal text of
    HMAC-SHA256(S, B) returns the valid result: [valid = true] and no
    [error]. *)
Theorem valid_signature_accepted (B : Buffer.t) (S : string) :
  Security.validateWebhookSignature B
    ("sha256=" +:+ Buffer.toString_hex (HMAC.sha256 (Buffer.from_string S) B)) S
  = Normal {| Security.valid := true; Security.error := None |}.
Proof.
  unfold Security.validateWebhookSignature.
  rewrite validate_try_prefixed, from_hex_toString_hex, timingSafeEqual_same.
  reflexivity.
Qed.


(** C10. The validator never throws: for every raw body, header and
    secret it returns a result, which is either the valid one or has
    [valid = false] and a non-empty [error]; and whenever the [try] block
    raises, the result is the validation-error one built from the
    exception. [timingSafeEqual] raises on buffers of different
    lengths: for a header with the prefix, of characters up to U+00FF
    as every header value of a request is, whose remaining text does
    not decode to 32 octets (the case of odd-length or non-hexadecimal
    digests), the result is the one built from the RangeError. *)
Theorem validator_total (B : Buffer.t) (signature S : string) :
  exists r : Security.SignatureValidationResult,
    Security.validateWebhookSignature B signature S = Normal r
    /\ (r = Security.is_valid
        \/ Security.valid r = false
           /\ exists text, Security.error r = Some text /\ text <> EmptyString)
    /\ (forall e, Security.validate_try B signature S = Throw e ->
        r = Security.validation_error e)
    /\ (Buffer.latin1 signature = true ->
        startsWith "sha256=" signature = true ->
        length (Buffer.from_hex (substring_from 7 signature)) <> 32%nat ->
        r = Security.validation_error Security.range_error).
Proof.
  unfold Security.validateWebhookSignature.
  destruct (Security.validate_try B signature S) as [r|e] eqn:Htry.
  - exists r. split; [reflexivity|]. split; [|split].
    + revert Htry. unfold Security.validate_try.
      destruct (negb _ || negb _).
      * intros [= <-]. right. split; [reflexivity|].
        eexists; split; [reflexivity | discriminate].
      * destruct (Security.timingSafeEqual _ _) as [[|]|]; cbn; intros [= <-].
        -- now left.
        -- right. split; [reflexivity|].
           eexists; split; [reflexivity | discriminate].
    + discriminate.
    + intros _ Hpre Hlen. exfalso. revert Htry. unfold Security.validate_try.
      rewrite Hpre.
      destruct (truthy (Str signature)) eqn:Ht.
      * cbn [negb orb]. unfold Security.expectedHash.
        rewrite from_hex_toString_hex, timingSafeEqual_lengths; [discriminate|].
        now rewrite hmac_length.
      * exfalso. destruct signature; [discriminate Hpre | discriminate Ht].
  - exists (Security.validation_error e). split; [reflexivity|]. split; [|split].
    + right. split; [reflexivity|].
      eexists; split; [reflexivity | discriminate].
    + now intros e' [= ->].
    + intros _ Hpre Hlen. revert Htry. unfold Security.validate_try.
      destruct (negb _ || negb _); [discriminate|].
      unfold Security.expectedHash.
      rewrite from_hex_toString_hex, timingSafeEqual_lengths;
        [now intros [= <-] | now rewrite hmac_length].
Qed.

Lemma scenario_signature :
  Scenario.signature
  = ("sha256=" +:+ Security.expectedHash Scenario.rawBody Scenario.secret)%string.
Proof. vm_compute. reflexivity. Qed.



(** Every single-bit mutation of the body [{}], bit [k] of octet [i] for
    the 2 octets and the 8 bits, presented with the signature of [{}]:
    each of the 16 is answered with signature-mismatch. *)
Example single_bit_body_mutations_mismatch :
  map (fun i =>
         map (fun k =>
                Security.validateWebhookSignature
                  (Buffer.flip_bit i k Scenario.rawBody) Scenario.signature
                  Scenario.secret)
             [0; 1; 2; 3; 4; 5; 6; 7])
      [0%nat; 1%nat]
  = repeat (repeat (Normal Security.signature_mismatch) 8) 2.
Proof. vm_compute. reflexivity. Qed.

Example odd_length_digest :
  Security.validateWebhookSignature Scenario.rawBody "sha256=abc" Scenario.secret
  = Normal (Security.validation_error Security.range_error).
Proof. vm_compute. reflexivity. Qed.

Example non_hex_digest :
  Security.validateWebhookSignature Scenario.rawBody
    "sha256=zz525245d41d96cd1b6a931e7f3f580edda83032a233e8c36a5130565e6efa53"
    Scenario.secret
  = Normal (Security.validation_error Security.range_error).
Proof. vm_compute. reflexivity. Qed.

Example validation_error_text :
  Security.error (Security.validation_error Security.range_error)
  = Some "Signature validation error: Input buffers must have the same byte length"%string.
Proof. reflexivity. Qed.

(* --------------------------------------------------------------------- *)
(** ** Effects                                                            *)
(* --------------------------------------------------------------------- *)

Lemma effects_none {A : Type} (m : M World A) (w : World) (r : completion A) :
  m w = (r, w) -> effects m w = [].
Proof.
  intros Hrun. unfold effects. rewrite Hrun. cbn [snd].
  apply List.skipn_all.
Qed.

Lemma effects_added {A : Type} (m : M World A) (w : World) (r : completion A)
    (c : option Channel) (events : list Event) :
  m w = (r, {| channel := c; trace := trace w ++ events |}) ->
  effects m w = events.
Proof.
  intros Hrun. unfold effects. rewrite Hrun. cbn [snd trace].
  rewrite List.skipn_app, List.skipn_all, Nat.sub_diag. reflexivity.
Qed.

(* --------------------------------------------------------------------- *)
(** ** The webhook handler                                                *)
(* --------------------------------------------------------------------- *)

(** C8. A request without the event-type header is answered 400 Bad
    Request and nothing is done to the broker: no publish call is made
    (the state of the process is left as it was). *)
Theorem missing_event_type_bad_request
    (rt : Runtime) (config : Handler.HandlerConfig)
    (request : Handler.FastifyRequest) (w : World) :
  Handler.carries request "x-discourse-event" = false ->
  exists message : string,
    Handler.webhook rt config request w
    = (Normal (Handler.error_reply 400 "Bad Request" message), w)
    /\ publish_calls (effects (Handler.webhook rt config request) w) = [].
Proof.
  unfold Handler.carries. intros Hevent.
  assert (Hrun : exists message : string,
             Handler.webhook rt config request w
             = (Normal (Handler.error_reply 400 "Bad Request" message), w)).
  { unfold Handler.webhook, try_catch. rewrite Hevent.
    destruct (truthy (of_header
                        (Handler.headers request !! "x-discourse-event-signature"%string)));
      cbn; eexists; reflexivity. }
  destruct Hrun as [message Hrun]. exists message. split; [exact Hrun|].
  now rewrite (effects_none _ _ _ Hrun).
Qed.

Lemma missing_event_type_bad_request_witness :
  exists message : string,
    Handler.webhook Scenario.runtime Scenario.config
      {| Handler.headers :=
           {[ "x-discourse-event-signature"%string := Scenario.signature ]};
         Handler.rawBody := Some Scenario.rawBody |}
      (Scenario.connected Scenario.accepting)
    = (Normal (Handler.error_reply 400 "Bad Request" message),
       Scenario.connected Scenario.accepting)
    /\ publish_calls
         (effects
            (Handler.webhook Scenario.runtime Scenario.config
               {| Handler.headers :=
                    {[ "x-discourse-event-signature"%string := Scenario.signature ]};
                  Handler.rawBody := Some Scenario.rawBody |})
            (Scenario.connected Scenario.accepting)) = [].
Proof.
  apply missing_event_type_bad_request. vm_compute. reflexivity.
Defined.

(** C7. A request that carries both required headers and whose signature
    the validator refuses (whatever the reason) is answered 403 Forbidden
    and no publish call is made. *)
Theorem invalid_signature_forbidden
    (rt : Runtime) (config : Handler.HandlerConfig)
    (request : Handler.FastifyRequest) (w : World)
    (signature : string) (rawBody : Buffer.t)
    (r : Security.SignatureValidationResult) :
  Handler.headers request !! "x-discourse-event-signature"%string = Some signature ->
  Handler.carries request "x-discourse-event-signature" = true ->
  Handler.carries request "x-discourse-event" = true ->
  Handler.rawBody request = Some rawBody ->
  Security.validateWebhookSignature rawBody signature
    (Handler.discourseWebhookSecret config) = Normal r ->
  Security.valid r = false ->
  Handler.webhook rt config request w
  = (Normal (Handler.error_reply 403 "Forbidden" "Invalid signature"), w)
  /\ publish_calls (effects (Handler.webhook rt config request) w) = [].
Proof.
  unfold Handler.carries. intros Hheader Hsig Hevent Hbody Hcheck Hinvalid.
  assert (Hrun : Handler.webhook rt config request w
                 = (Normal (Handler.error_reply 403 "Forbidden" "Invalid signature"), w)).
  { unfold Handler.webhook, try_catch.
    rewrite Hsig, Hevent, Hbody. cbn [negb].
    rewrite Hheader. cbn [of_header as_string].
    unfold bind, lift. rewrite Hcheck, Hinvalid. reflexivity. }
  split; [exact Hrun|]. now rewrite (effects_none _ _ _ Hrun).
Qed.

Lemma invalid_signature_forbidden_witness :
  Handler.webhook Scenario.runtime Scenario.config
    {| Handler.headers :=
         {[ "x-discourse-event-signature"%string := "sha256=deadbeef"%string;
            "x-discourse-event"%string := "notification"%string ]};
       Handler.rawBody := Some Scenario.rawBody |}
    (Scenario.connected Scenario.accepting)
  = (Normal (Handler.error_reply 403 "Forbidden" "Invalid signature"),
     Scenario.connected Scenario.accepting)
  /\ publish_calls
       (effects
          (Handler.webhook Scenario.runtime Scenario.config
             {| Handler.headers :=
                  {[ "x-discourse-event-signature"%string := "sha256=deadbeef"%string;
                     "x-discourse-event"%string := "notification"%string ]};
                Handler.rawBody := Some Scenario.rawBody |})
          (Scenario.connected Scenario.accepting)) = [].
Proof.
  apply (invalid_signature_forbidden _ _ _ _ "sha256=deadbeef" Scenario.rawBody
           (Security.validation_error Security.range_error));
    vm_compute; reflexivity.
Defined.

(** [publish] on a connected queue makes one [sendToQueue] call and hands
    its answer on, exception included. *)
Lemma publish_connected (self : MessageQueue.t) (props : list (string * value))
    (w : World) (ch : Channel) :
  channel w = Some ch ->
  exists buffer : Buffer.t,
    MessageQueue.publish self (Obj props) w
    = (sendToQueue_answer ch (MessageQueue.queueName self) buffer,
       {| channel := channel w;
          trace := trace w ++ [Publish (Obj props);
                               SendToQueue (MessageQueue.queueName self) buffer true] |}).
Proof.
  intros Hch.
  destruct (JSON.stringify (Obj props)) as [text|] eqn:Htext; [|discriminate Htext].
  exists (Buffer.from_string text).
  unfold MessageQueue.publish, bind, emit at 1. cbn [channel trace].
  rewrite Hch. unfold try_catch, bind, lift. rewrite Htext.
  cbn [MessageQueue.Buffer_from].
  unfold MessageQueue.sendToQueue, bind, emit, lift, ret, throw.
  cbn [channel trace get]. rewrite <- app_assoc. cbn [app].
  destruct (sendToQueue_answer ch _ _) as [success|e]; reflexivity.
Qed.

(** [publish] before [connect] throws and sends nothing. *)
Lemma publish_not_connected (self : MessageQueue.t) (message : value) (w : World) :
  channel w = None ->
  MessageQueue.publish self message w
  = (Throw MessageQueue.not_initialized,
     {| channel := channel w; trace := trace w ++ [Publish message] |}).
Proof.
  intros Hch. unfold MessageQueue.publish, bind, emit. cbn [channel trace].
  rewrite Hch. reflexivity.
Qed.

(** Past the header, raw-body, signature and JSON checks the handler
    calls [publish] once, with an envelope that has a fresh [id] and
    [retry_count] 0, and answers by what [sendToQueue] said: 200 on
    [true], 503 on [false], 500 when it threw. *)
Lemma webhook_publishes_once
    (rt : Runtime) (config : Handler.HandlerConfig)
    (request : Handler.FastifyRequest) (w : World)
    (signature : string) (rawBody : Buffer.t)
    (r : Security.SignatureValidationResult) (payload : value) (ch : Channel) :
  Handler.headers request !! "x-discourse-event-signature"%string = Some signature ->
  Handler.carries request "x-discourse-event-signature" = true ->
  Handler.carries request "x-discourse-event" = true ->
  Handler.rawBody request = Some rawBody ->
  Security.validateWebhookSignature rawBody signature
    (Handler.discourseWebhookSecret config) = Normal r ->
  Security.valid r = true ->
  JSON_parse rt (Buffer.toString rawBody) = Normal payload ->
  channel w = Some ch ->
  exists (envelope : value) (buffer : Buffer.t),
    get envelope "id" = Normal (Str (randomUUID rt))
    /\ get envelope "retry_count" = Normal (Num 0)
    /\ Handler.webhook rt config request w
       = (match sendToQueue_answer ch
                  (MessageQueue.queueName (Handler.queue config)) buffer with
          | Normal true => Normal (Handler.queued_reply (Str (randomUUID rt)))
          | Normal false =>
              Normal (Handler.error_reply 503 "Service Unavailable"
                        "Queue is full or unavailable")
          | Throw _ =>
              Normal (Handler.error_reply 500 "Internal Server Error"
                        "Failed to process webhook")
          end,
          {| channel := channel w;
             trace := trace w
                      ++ [Publish envelope;
                          SendToQueue (MessageQueue.queueName (Handler.queue config))
                            buffer true] |}).
Proof.
  unfold Handler.carries.
  intros Hheader Hsig Hevent Hbody Hcheck Hvalid Hparse Hch.
  unfold Handler.webhook, try_catch.
  rewrite Hsig, Hevent, Hbody. cbn [negb].
  rewrite Hheader. cbn [of_header as_string].
  unfold bind at 1, lift at 1. rewrite Hcheck, Hvalid. cbn [negb].
  unfold bind at 1, lift at 1. rewrite Hparse. cbv zeta.
  match goal with
  | |- context [MessageQueue.publish ?q (Obj ?props)] =>
      destruct (publish_connected q props w ch Hch) as [buffer Hpublish];
      exists (Obj props), buffer
  end.
  split; [reflexivity|]. split; [reflexivity|].
  unfold bind at 1. rewrite Hpublish.
  destruct (sendToQueue_answer ch _ buffer) as [[|]|e]; reflexivity.
Qed.

(** C5, as the code has it. For a request that carries both required
    headers, whose signature validates and whose raw body parses as
    JSON, handled while the queue is connected and the channel accepts
    the message ([sendToQueue] answers [true]): the handler makes exactly
    one publish call, the envelope it publishes has [retry_count] 0, and
    the reply is 200 with status "queued" and a [message_id] equal to the
    [id] of that envelope. *)
Theorem accepted_request_queued
    (rt : Runtime) (config : Handler.HandlerConfig)
    (request : Handler.FastifyRequest) (w : World)
    (signature : string) (rawBody : Buffer.t)
    (r : Security.SignatureValidationResult) (payload : value) (ch : Channel) :
  Handler.headers request !! "x-discourse-event-signature"%string = Some signature ->
  Handler.carries request "x-discourse-event-signature" = true ->
  Handler.carries request "x-discourse-event" = true ->
  Handler.rawBody request = Some rawBody ->
  Security.validateWebhookSignature rawBody signature
    (Handler.discourseWebhookSecret config) = Normal r ->
  Security.valid r = true ->
  JSON_parse rt (Buffer.toString rawBody) = Normal payload ->
  channel w = Some ch ->
  (forall buffer : Buffer.t,
      sendToQueue_answer ch (MessageQueue.queueName (Handler.queue config)) buffer
      = Normal true) ->
  exists envelope message_id : value,
    fst (Handler.webhook rt config request w)
    = Normal {| Handler.code := 200;
                Handler.body := Obj [("status", Str "queued");
                                     ("message_id", message_id)]%string |}
    /\ publish_calls (effects (Handler.webhook rt config request) w) = [envelope]
    /\ get envelope "id" = Normal message_id
    /\ get envelope "retry_count" = Normal (Num 0).
Proof.
  intros Hheader Hsig Hevent Hbody Hcheck Hvalid Hparse Hch Haccepts.
  destruct (webhook_publishes_once rt config request w signature rawBody r payload ch
              Hheader Hsig Hevent Hbody Hcheck Hvalid Hparse Hch)
    as (envelope & buffer & Hid & Hcount & Hrun).
  rewrite Haccepts in Hrun.
  exists envelope, (Str (randomUUID rt)). split; [|split; [|split]].
  - now rewrite Hrun.
  - now rewrite (effects_added _ _ _ _ _ Hrun).
  - exact Hid.
  - exact Hcount.
Qed.

Lemma accepted_request_queued_witness :
  exists envelope message_id : value,
    fst (Handler.webhook Scenario.runtime Scenario.config Scenario.request
           (Scenario.connected Scenario.accepting))
    = Normal {| Handler.code := 200;
                Handler.body := Obj [("status", Str "queued");
                                     ("message_id", message_id)]%string |}
    /\ publish_calls
         (effects (Handler.webhook Scenario.runtime Scenario.config Scenario.request)
            (Scenario.connected Scenario.accepting)) = [envelope]
    /\ get envelope "id" = Normal message_id
    /\ get envelope "retry_count" = Normal (Num 0).
Proof.
  apply (accepted_request_queued Scenario.runtime Scenario.config Scenario.request
           (Scenario.connected Scenario.accepting)
           Scenario.signature Scenario.rawBody Security.is_valid (Obj [])
           Scenario.accepting);
    vm_compute; reflexivity.
Defined.

(** C5 fails as stated: the scenario request carries both headers, its
    signature validates and its body parses, yet with a channel whose
    write buffer is full the reply is 503, not 200. *)
Lemma saturated_channel_not_queued :
  Handler.carries Scenario.request "x-discourse-event-signature" = true
  /\ Handler.carries Scenario.request "x-discourse-event" = true
  /\ Security.validateWebhookSignature Scenario.rawBody Scenario.signature
       (Handler.discourseWebhookSecret Scenario.config)
     = Normal Security.is_valid
  /\ JSON_parse Scenario.runtime (Buffer.toString Scenario.rawBody) = Normal (Obj [])
  /\ fst (Handler.webhook Scenario.runtime Scenario.config Scenario.request
            (Scenario.connected Scenario.saturated))
     = Normal (Handler.error_reply 503 "Service Unavailable"
                 "Queue is full or unavailable").
Proof. repeat split; vm_compute; reflexivity. Qed.

(** C6 on the code. The scenario request passes every check. When the
    channel answers [false] the reply is 503; when [sendToQueue] throws
    (the channel was closed under the handler) or the queue was never
    connected, [publish] throws, the handler's [catch] takes over and the
    reply is 500, not 503. In each case [publish] is called once. *)
Theorem publish_failure_replies :
  (fst (Handler.webhook Scenario.runtime Scenario.config Scenario.request
          (Scenario.connected Scenario.saturated))
   = Normal (Handler.error_reply 503 "Service Unavailable" "Queue is full or unavailable")
   /\ publish_calls
        (effects (Handler.webhook Scenario.runtime Scenario.config Scenario.request)
           (Scenario.connected Scenario.saturated)) = [Scenario.envelope])
  /\ (fst (Handler.webhook Scenario.runtime Scenario.config Scenario.request
             (Scenario.connected Scenario.closed))
      = Normal (Handler.error_reply 500 "Internal Server Error" "Failed to process webhook")
      /\ publish_calls
           (effects (Handler.webhook Scenario.runtime Scenario.config Scenario.request)
              (Scenario.connected Scenario.closed)) = [Scenario.envelope])
  /\ (fst (Handler.webhook Scenario.runtime Scenario.config Scenario.request
             Scenario.never_connected)
      = Normal (Handler.error_reply 500 "Internal Server Error" "Failed to process webhook")
      /\ publish_calls
           (effects (Handler.webhook Scenario.runtime Scenario.config Scenario.request)
              Scenario.never_connected) = [Scenario.envelope]).
Proof. repeat split; vm_compute; reflexivity. Qed.

(* --------------------------------------------------------------------- *)
(** ** The consumer callback                                              *)
(* --------------------------------------------------------------------- *)

(** The consumer's decision for one delivery: when the handler returns,
    [ack] is called, and when [ack] returns the callback is done. *)
Lemma on_message_handler_returns
    (rt : Runtime) (handler : value -> M World unit) (msg : ConsumeMessage)
    (message id : value) (w w1 : World) (ch : Channel) :
  JSON_parse rt (Buffer.toString (content msg)) = Normal message ->
  get message "id" = Normal id ->
  handler message w = (Normal tt, w1) ->
  channel w1 = Some ch ->
  ack_answer ch = Normal tt ->
  MessageQueue.on_message rt handler (Some msg) w
  = (Normal tt, {| channel := channel w1; trace := trace w1 ++ [Ack msg] |}).
Proof.
  intros Hparse Hid Hrun Hch Hack.
  unfold MessageQueue.on_message, try_catch, bind, lift.
  rewrite Hparse, Hid, Hrun.
  unfold MessageQueue.channel_ack. rewrite Hch, Hack.
  unfold bind, emit, lift, ret. rewrite ?Hch. reflexivity.
Qed.

(** When [ack] throws, the [catch] block runs: [reject] is called as for
    a handler that failed, and the callback ends as [reject] does. *)
Lemma on_message_ack_throws
    (rt : Runtime) (handler : value -> M World unit) (msg : ConsumeMessage)
    (message id : value) (e : exn) (w w1 : World) (ch : Channel) :
  JSON_parse rt (Buffer.toString (content msg)) = Normal message ->
  get message "id" = Normal id ->
  handler message w = (Normal tt, w1) ->
  channel w1 = Some ch ->
  ack_answer ch = Throw e ->
  MessageQueue.on_message rt handler (Some msg) w
  = (reject_answer ch,
     {| channel := channel w1;
        trace := trace w1 ++ [Ack msg; Reject msg (MessageQueue.retryCount msg <? 3)] |}).
Proof.
  intros Hparse Hid Hrun Hch Hack.
  unfold MessageQueue.on_message, try_catch, bind, lift.
  rewrite Hparse, Hid, Hrun.
  unfold MessageQueue.channel_ack. rewrite Hch, Hack.
  unfold bind, emit, lift.
  destruct (MessageQueue.retryCount msg <? 3);
    unfold MessageQueue.channel_reject; cbn [channel trace]; rewrite ?Hch;
    unfold bind, emit, lift; cbn [channel trace];
    rewrite <- app_assoc, ?Hch; reflexivity.
Qed.

(** When the handler throws, [reject] is called: with requeue while the
    counter read from the delivery is below 3, without from 3 on. The
    message handed back to the broker is the delivery itself, and the
    callback ends as [reject] does: normally on an open channel, with
    the exception of [reject] on a closed one. *)
Lemma on_message_handler_throws
    (rt : Runtime) (handler : value -> M World unit) (msg : ConsumeMessage)
    (message id : value) (e : exn) (w w1 : World) (ch : Channel) :
  JSON_parse rt (Buffer.toString (content msg)) = Normal message ->
  get message "id" = Normal id ->
  handler message w = (Throw e, w1) ->
  channel w1 = Some ch ->
  MessageQueue.on_message rt handler (Some msg) w
  = (reject_answer ch,
     {| channel := channel w1;
        trace := trace w1 ++ [Reject msg (MessageQueue.retryCount msg <? 3)] |}).
Proof.
  intros Hparse Hid Hrun Hch.
  unfold MessageQueue.on_message, try_catch, bind, lift.
  rewrite Hparse, Hid, Hrun.
  destruct (MessageQueue.retryCount msg <? 3);
    unfold MessageQueue.channel_reject; rewrite Hch;
    unfold bind, emit, lift; cbn [channel trace]; now rewrite Hch.
Qed.

(** An event type other than the two the router knows is ignored: the
    router returns without running a processor. *)
Lemma routeMessage_ignores
    (rt : Runtime) (message event eventType : value) (w : World) :
  get message "event" = Normal event ->
  get event "event_type" = Normal eventType ->
  is_string "notification" eventType = false ->
  is_string "notification_created" eventType = false ->
  Worker.routeMessage rt message w = (Normal tt, w).
Proof.
  intros Hevent Htype Hn Hnc.
  unfold Worker.routeMessage, bind, lift, try_catch.
  rewrite Hevent, Htype, Hn, Hnc. reflexivity.
Qed.

(** C9. A consumed message whose event type is neither "notification"
    nor "notification_created" is routed to no processor and the router
    returns normally, so [ack] is called.  When [ack] returns, as on an
    open channel, the delivery is acknowledged and nothing is rejected,
    neither for retry nor for dead-lettering.  When [ack] throws, as on
    a channel that has closed, the [catch] block of the callback takes
    over: [reject] is called as for a failed delivery, and the callback
    ends as [reject] does. *)
Theorem unknown_event_type_acknowledged
    (rt : Runtime) (msg : ConsumeMessage) (message event eventType : value)
    (w : World) (ch : Channel) :
  channel w = Some ch ->
  JSON_parse rt (Buffer.toString (content msg)) = Normal message ->
  get message "event" = Normal event ->
  get event "event_type" = Normal eventType ->
  is_string "notification" eventType = false ->
  is_string "notification_created" eventType = false ->
  Worker.routeMessage rt message w = (Normal tt, w)
  /\ (ack_answer ch = Normal tt ->
      MessageQueue.on_message rt (Worker.routeMessage rt) (Some msg) w
      = (Normal tt, {| channel := channel w; trace := trace w ++ [Ack msg] |})
      /\ effects (MessageQueue.on_message rt (Worker.routeMessage rt) (Some msg)) w
         = [Ack msg])
  /\ (forall e, ack_answer ch = Throw e ->
      MessageQueue.on_message rt (Worker.routeMessage rt) (Some msg) w
      = (reject_answer ch,
         {| channel := channel w;
            trace := trace w
                     ++ [Ack msg; Reject msg (MessageQueue.retryCount msg <? 3)] |})
      /\ effects (MessageQueue.on_message rt (Worker.routeMessage rt) (Some msg)) w
         = [Ack msg; Reject msg (MessageQueue.retryCount msg <? 3)]).
Proof.
  intros Hch Hparse Hevent Htype Hn Hnc.
  pose proof (routeMessage_ignores rt message event eventType w Hevent Htype Hn Hnc)
    as Hroute.
  assert (Hid : exists id, get message "id" = Normal id).
  { destruct message; try discriminate Hevent; eexists; reflexivity. }
  destruct Hid as [id Hid].
  split; [exact Hroute|]. split.
  - intros Hack.
    pose proof (on_message_handler_returns rt (Worker.routeMessage rt) msg message id
                  w w ch Hparse Hid Hroute Hch Hack) as Hrun.
    split; [exact Hrun|]. exact (effects_added _ _ _ _ _ Hrun).
  - intros e Hack.
    pose proof (on_message_ack_throws rt (Worker.routeMessage rt) msg message id e
                  w w ch Hparse Hid Hroute Hch Hack) as Hrun.
    split; [exact Hrun|]. exact (effects_added _ _ _ _ _ Hrun).
Qed.

Lemma unknown_event_type_acknowledged_witness :
  Worker.routeMessage Scenario.runtime Scenario.user_envelope
    (Scenario.connected Scenario.accepting)
  = (Normal tt, Scenario.connected Scenario.accepting)
  /\ Scenario.callback (Some Scenario.user_delivery) (Scenario.connected Scenario.accepting)
     = (Normal tt,
        {| channel := channel (Scenario.connected Scenario.accepting);
           trace := trace (Scenario.connected Scenario.accepting)
                    ++ [Ack Scenario.user_delivery] |})
  /\ effects (Scenario.callback (Some Scenario.user_delivery))
       (Scenario.connected Scenario.accepting)
     = [Ack Scenario.user_delivery].
Proof.
  destruct (unknown_event_type_acknowledged Scenario.runtime Scenario.user_delivery
              Scenario.user_envelope Scenario.user_event (Str "user_created")
              (Scenario.connected Scenario.accepting) Scenario.accepting)
    as [Hroute [Hopen _]]; try (vm_compute; reflexivity).
  split; [exact Hroute|]. exact (Hopen eq_refl).
Defined.

(** The claim as the specification words it fails where [ack] throws.
    On a channel that has closed, a delivery of the unknown type
    "user_created" is routed without an error, yet it is not
    acknowledged: [ack] throws, the delivery is rejected with requeue,
    which is the retry path, and the callback ends with the exception of
    [reject]. *)
Lemma unknown_event_type_rejected_on_closed_channel :
  Worker.routeMessage Scenario.runtime Scenario.user_envelope
    (Scenario.connected Scenario.closed)
  = (Normal tt, Scenario.connected Scenario.closed)
  /\ effects (Scenario.callback (Some Scenario.user_delivery))
       (Scenario.connected Scenario.closed)
     = [Ack Scenario.user_delivery; Reject Scenario.user_delivery true]
  /\ fst (Scenario.callback (Some Scenario.user_delivery)
            (Scenario.connected Scenario.closed))
     = Throw Scenario.channel_closed
  /\ effects (Scenario.callback (Some Scenario.user_delivery))
       (Scenario.connected Scenario.closed)
     <> [Ack Scenario.user_delivery].
Proof.
  assert (Hcalls : effects (Scenario.callback (Some Scenario.user_delivery))
                     (Scenario.connected Scenario.closed)
                   = [Ack Scenario.user_delivery; Reject Scenario.user_delivery true]).
  { vm_compute. reflexivity. }
  split; [vm_compute; reflexivity|]. split; [exact Hcalls|].
  split; [vm_compute; reflexivity|]. rewrite Hcalls. discriminate.
Qed.

(* --------------------------------------------------------------------- *)
(** ** Redelivery                                                         *)
(* --------------------------------------------------------------------- *)

Lemma scenario_delivery_parses :
  JSON_parse Scenario.runtime (Buffer.toString (content Scenario.delivery))
  = Normal Scenario.envelope_received.
Proof. vm_compute. reflexivity. Qed.

(** The notification processor throws on the scenario event: its payload
    has no [notification]. *)
Lemma scenario_route_throws (w : World) :
  Worker.routeMessage Scenario.runtime Scenario.envelope_received w
  = (Throw (Error "TypeError"
              "Cannot read properties of undefined (reading 'notification_type')"),
     {| channel := channel w;
        trace := trace w
                 ++ [Processor "processNotificationEvent" Scenario.event_received] |}).
Proof. reflexivity. Qed.

Lemma scenario_retry_count : MessageQueue.retryCount Scenario.delivery = 0.
Proof. vm_compute. reflexivity. Qed.

(** One failed attempt on the scenario delivery: the processor runs, and
    the delivery is rejected with requeue. *)
Lemma scenario_callback (t : list Event) :
  Scenario.callback (Some Scenario.delivery)
    {| channel := Some Scenario.accepting; trace := t |}
  = (Normal tt,
     {| channel := Some Scenario.accepting; trace := t ++ Scenario.failed_attempt |}).
Proof.
  unfold Scenario.callback.
  rewrite (on_message_handler_throws Scenario.runtime _ Scenario.delivery
             Scenario.envelope_received (Str Scenario.uuid) _ _ _ Scenario.accepting
             scenario_delivery_parses eq_refl
             (scenario_route_throws {| channel := Some Scenario.accepting; trace := t |})
             eq_refl).
  rewrite scenario_retry_count.
  cbn [channel trace Z.ltb Z.compare reject_answer Scenario.accepting].
  now rewrite <- app_assoc.
Qed.

Lemma scenario_deliver (t : list Event) :
  Broker.deliver Scenario.callback Scenario.queued
    {| channel := Some Scenario.accepting; trace := t |}
  = (Scenario.queued,
     {| channel := Some Scenario.accepting; trace := t ++ Scenario.failed_attempt |}).
Proof.
  unfold Broker.deliver. cbn [Broker.ready Scenario.queued].
  rewrite (effects_added _ _ _ _ _ (scenario_callback t)).
  rewrite scenario_callback. reflexivity.
Qed.

Lemma concat_repeat_snoc {A : Type} (l : list A) (n : nat) :
  concat (repeat l n) ++ l = concat (repeat l (S n)).
Proof.
  induction n as [|n IH]; cbn [repeat concat] in *.
  - now rewrite app_nil_r.
  - now rewrite <- app_assoc, IH.
Qed.

(** C1 on the code. The envelope the handler publishes for the scenario
    request fails in the notification processor at every delivery. After
    any number [n] of deliveries, four and more included, it is still at
    the head of the queue and nothing has been dead-lettered: every
    attempt ended in a rejection with requeue. *)
Theorem failing_delivery_requeued_forever (n : nat) :
  Broker.run n Scenario.callback Scenario.queued (Scenario.connected Scenario.accepting)
  = (Scenario.queued,
     {| channel := Some Scenario.accepting;
        trace := concat (repeat Scenario.failed_attempt n) |}).
Proof.
  assert (Hgen : forall (k done : nat),
             Broker.run k Scenario.callback Scenario.queued
               {| channel := Some Scenario.accepting;
                  trace := concat (repeat Scenario.failed_attempt done) |}
             = (Scenario.queued,
                {| channel := Some Scenario.accepting;
                   trace := concat (repeat Scenario.failed_attempt (done + k)) |})).
  { induction k as [|k IH]; intros done.
    - now rewrite Nat.add_0_r.
    - cbn [Broker.run]. rewrite scenario_deliver.
      replace (concat (repeat Scenario.failed_attempt done) ++ Scenario.failed_attempt)
        with (concat (repeat Scenario.failed_attempt (S done))).
      + rewrite IH. now rewrite Nat.add_succ_r.
      + symmetry. apply concat_repeat_snoc. }
  exact (Hgen n 0%nat).
Qed.

(** C2 on the code. In the same run the counter the consumer reads from
    the delivery is 0 at every one of the first [n] deliveries: the
    requeued message carries the headers it had, so the count recorded
    for a redelivery is not one more than before. *)
Theorem redelivered_retry_count_unchanged (n : nat) :
  map MessageQueue.retryCount
    (Broker.delivered n Scenario.callback Scenario.queued
       (Scenario.connected Scenario.accepting))
  = repeat 0 n.
Proof.
  unfold Scenario.connected. generalize (@nil Event) as t.
  induction n as [|n IH]; intros t; [reflexivity|].
  cbn [Broker.delivered Broker.ready Scenario.queued].
  rewrite scenario_deliver. cbn [map repeat].
  now rewrite IH, scenario_retry_count.
Qed.

(** The scenario delivery is what the handler sends to the queue for the
    scenario request. *)
Lemma scenario_delivery_published :
  effects (Handler.webhook Scenario.runtime Scenario.config Scenario.request)
    (Scenario.connected Scenario.accepting)
  = [Publish Scenario.envelope;
     SendToQueue "discourse-events" (content Scenario.delivery) true].
Proof. vm_compute. reflexivity. Qed.

(** The retry decision at the limit: for a delivery whose counter has
    reached 3 and whose handler throws, [reject] is called without
    requeue.  It is the one call the callback makes on the channel, and
    the callback ends as that call does: it returns when [reject]
    returns, and an exception of [reject], as on a closed channel,
    leaves the callback. *)
Lemma retry_limit_dead_letters
    (rt : Runtime) (handler : value -> M World unit) (msg : ConsumeMessage)
    (message id : value) (e : exn) (w w1 : World) (ch : Channel) :
  JSON_parse rt (Buffer.toString (content msg)) = Normal message ->
  get message "id" = Normal id ->
  handler message w = (Throw e, w1) ->
  channel w1 = Some ch ->
  3 <= MessageQueue.retryCount msg ->
  MessageQueue.on_message rt handler (Some msg) w
  = (reject_answer ch,
     {| channel := channel w1; trace := trace w1 ++ [Reject msg false] |}).
Proof.
  intros Hparse Hid Hrun Hch Hlimit.
  rewrite (on_message_handler_throws rt handler msg message id e w w1 ch
             Hparse Hid Hrun Hch).
  apply Z.ltb_ge in Hlimit. now rewrite Hlimit.
Qed.

(** A header without the prefix is refused as malformed, whatever the
    body and the secret. *)
Lemma unprefixed_header_malformed (B : Buffer.t) (signature S : string) :
  startsWith "sha256=" signature = false ->
  Security.validateWebhookSignature B signature S = Normal Security.invalid_format.
Proof.
  intros Hprefix. unfold Security.validateWebhookSignature, Security.validate_try.
  rewrite Hprefix. cbn [negb]. now rewrite orb_true_r.
Qed.

Lemma unprefixed_header_malformed_witness :
  Security.validateWebhookSignature Scenario.rawBody
    "08525245d41d96cd1b6a931e7f3f580edda83032a233e8c36a5130565e6efa53" Scenario.secret
  = Normal Security.invalid_format.
Proof. apply unprefixed_header_malformed. reflexivity. Defined.

Lemma retry_limit_dead_letters_witness :
  Scenario.callback (Some Scenario.exhausted_delivery)
    (Scenario.connected Scenario.accepting)
  = (Normal tt,
     {| channel := Some Scenario.accepting;
        trace := [Processor "processNotificationEvent" Scenario.event_received]
                 ++ [Reject Scenario.exhausted_delivery false] |}).
Proof.
  apply (retry_limit_dead_letters Scenario.runtime (Worker.routeMessage Scenario.runtime)
           Scenario.exhausted_delivery Scenario.envelope_received (Str Scenario.uuid)
           (Error "TypeError"
              "Cannot read properties of undefined (reading 'notification_type')")
           (Scenario.connected Scenario.accepting)
           {| channel := Some Scenario.accepting;
              trace := [Processor "processNotificationEvent" Scenario.event_received] |}
           Scenario.accepting).
  - vm_compute. reflexivity.
  - reflexivity.
  - reflexivity.
  - reflexivity.
  - vm_compute. discriminate.
Defined.

Lemma publish_not_connected_witness :
  MessageQueue.publish (Handler.queue Scenario.config) Scenario.envelope
    Scenario.never_connected
  = (Throw MessageQueue.not_initialized,
     {| channel := None; trace := [Publish Scenario.envelope] |}).
Proof. apply (publish_not_connected _ _ Scenario.never_connected). reflexivity. Defined.

(* ===================================================================== *)
(** * Further properties of the code                                      *)
(* ===================================================================== *)

(* --------------------------------------------------------------------- *)
(** ** validateWebhookSignature: which headers are accepted               *)
(* --------------------------------------------------------------------- *)

Lemma startsWith_split (signature : string) :
  startsWith "sha256=" signature = true ->
  signature = ("sha256=" +:+ substring_from 7 signature)%string.
Proof.
  unfold startsWith. intros Hprefix.
  do 7 (destruct signature as [|c signature]; [discriminate Hprefix|];
        cbn [String.prefix] in Hprefix;
        match type of Hprefix with
        | context [ascii_dec ?a c] =>
            destruct (ascii_dec a c) as [<-|]; [|discriminate Hprefix]
        end).
  reflexivity.
Qed.

Lemma validate_prefixed (B : Buffer.t) (S hex : string) :
  Security.validateWebhookSignature B ("sha256=" +:+ hex) S =
  match Security.timingSafeEqual (Buffer.from_hex hex)
                                 (HMAC.sha256 (Buffer.from_string S) B) with
  | Throw e => Normal (Security.validation_error e)
  | Normal isValid =>
      if isValid then Normal Security.is_valid else Normal Security.signature_mismatch
  end.
Proof.
  unfold Security.validateWebhookSignature. rewrite validate_try_prefixed.
  destruct (Security.timingSafeEqual _ _) as [[|]|e]; reflexivity.
Qed.

Lemma validate_decoded (B : Buffer.t) (S hex : string) :
  Buffer.from_hex hex = HMAC.sha256 (Buffer.from_string S) B ->
  Security.validateWebhookSignature B ("sha256=" +:+ hex) S = Normal Security.is_valid.
Proof.
  intros Hdecoded. now rewrite validate_prefixed, Hdecoded, timingSafeEqual_same.
Qed.

Lemma unprefixed_header_malformed_aux (B : Buffer.t) (signature S : string) :
  startsWith "sha256=" signature = false ->
  Security.validateWebhookSignature B signature S = Normal Security.invalid_format.
Proof.
  intros Hprefix. unfold Security.validateWebhookSignature, Security.validate_try.
  rewrite Hprefix. cbn [negb]. now rewrite orb_true_r.
Qed.

(** Among the headers of characters up to U+00FF, which the header
    values of a request all are, the validator accepts exactly those
    that start with "sha256=" and whose remaining text decodes, as
    hexadecimal, to the HMAC-SHA256 of the raw body under the secret. *)
Theorem accepted_iff_decodes_to_hmac (B : Buffer.t) (signature S : string) :
  Buffer.latin1 signature = true ->
  Security.validateWebhookSignature B signature S = Normal Security.is_valid
  <-> startsWith "sha256=" signature = true
      /\ Buffer.from_hex (substring_from 7 signature)
         = HMAC.sha256 (Buffer.from_string S) B.
Proof.
  intros _. split.
  - intros Hvalid.
    destruct (startsWith "sha256=" signature) eqn:Hprefix.
    + split; [reflexivity|].
      rewrite (startsWith_split _ Hprefix), validate_prefixed in Hvalid.
      unfold Security.timingSafeEqual in Hvalid.
      destruct (Nat.eqb _ _); [|discriminate Hvalid].
      destruct (Buffer.equal _ _) eqn:Hequal; [|discriminate Hvalid].
      now apply equal_spec.
    + rewrite (unprefixed_header_malformed_aux B signature S Hprefix) in Hvalid.
      discriminate Hvalid.
  - intros [Hprefix Hdecoded].
    rewrite (startsWith_split _ Hprefix). now apply validate_decoded.
Qed.

Lemma accepted_iff_decodes_to_hmac_witness :
  Security.validateWebhookSignature Scenario.rawBody Scenario.signature Scenario.secret
  = Normal Security.is_valid
  <-> startsWith "sha256=" Scenario.signature = true
      /\ Buffer.from_hex (substring_from 7 Scenario.signature)
         = HMAC.sha256 (Buffer.from_string Scenario.secret) Scenario.rawBody.
Proof. apply accepted_iff_decodes_to_hmac. reflexivity. Defined.

Lemma from_hex_app (b : Buffer.t) (suffix : string) :
  Buffer.from_hex (Buffer.toString_hex b +:+ suffix) = b ++ Buffer.from_hex suffix.
Proof.
  induction b as [|x b IH]; [reflexivity|].
  change (Buffer.from_hex
            (String (Buffer.hex_digit (Buffer.value x / 16))
               (String (Buffer.hex_digit (Buffer.value x mod 16))
                  (Buffer.toString_hex b +:+ suffix)))
          = x :: b ++ Buffer.from_hex suffix).
  rewrite from_hex_pair. now rewrite IH.
Qed.

(** Text after the digest, of characters up to U+00FF, is ignored when
    it does not start with two hexadecimal digits (a single character,
    or anything that is not hexadecimal): the header still validates. *)
Theorem trailing_text_ignored (B : Buffer.t) (S suffix : string) :
  Buffer.latin1 suffix = true ->
  Buffer.from_hex suffix = [] ->
  Security.validateWebhookSignature B
    ("sha256=" +:+ Buffer.toString_hex (HMAC.sha256 (Buffer.from_string S) B) +:+ suffix) S
  = Normal Security.is_valid.
Proof.
  intros _ Hsuffix. apply validate_decoded.
  now rewrite from_hex_app, Hsuffix, app_nil_r.
Qed.

Lemma trailing_text_ignored_witness :
  Security.validateWebhookSignature Scenario.rawBody
    ("sha256=" +:+ Buffer.toString_hex
       (HMAC.sha256 (Buffer.from_string Scenario.secret) Scenario.rawBody)
     +:+ "-tampered") Scenario.secret
  = Normal Security.is_valid.
Proof. apply trailing_text_ignored; reflexivity. Defined.

Lemma unhex_upper (c : ascii) : Buffer.unhex (upper_char c) = Buffer.unhex c.
Proof.
  destruct c as [b0 b1 b2 b3 b4 b5 b6 b7].
  destruct b0, b1, b2, b3, b4, b5, b6, b7; reflexivity.
Qed.

Lemma from_hex_uppercase (s : string) :
  Buffer.from_hex (uppercase s) = Buffer.from_hex s.
Proof.
  assert (Hgen : forall (n : nat) (t : string),
             (String.length t <= n)%nat ->
             Buffer.from_hex (uppercase t) = Buffer.from_hex t).
  { induction n as [|n IH]; intros [|c1 [|c2 rest]] Hlen; cbn [String.length] in Hlen;
      try reflexivity; try lia.
    cbn [uppercase Buffer.from_hex]. rewrite !unhex_upper.
    destruct (Buffer.unhex c1), (Buffer.unhex c2); try reflexivity.
    f_equal. apply IH. lia. }
  exact (Hgen (String.length s) s (Nat.le_refl _)).
Qed.

(** The letter case of the digest does not matter: a header and the same
    header with its digest in upper case get the same answer. *)
Theorem digest_case_ignored (B : Buffer.t) (S hex : string) :
  Security.validateWebhookSignature B ("sha256=" +:+ uppercase hex) S
  = Security.validateWebhookSignature B ("sha256=" +:+ hex) S.
Proof. now rewrite !validate_prefixed, from_hex_uppercase. Qed.

(* --------------------------------------------------------------------- *)
(** ** The webhook handler: the refusals and the reply in general         *)
(* --------------------------------------------------------------------- *)

(** A request without the signature header is answered 400 with the
    message naming that header, before anything else is looked at, and
    the state of the process is left as it was. *)
Theorem missing_signature_bad_request
    (rt : Runtime) (config : Handler.HandlerConfig)
    (request : Handler.FastifyRequest) (w : World) :
  Handler.carries request "x-discourse-event-signature" = false ->
  Handler.webhook rt config request w
  = (Normal (Handler.error_reply 400 "Bad Request"
               "Missing X-Discourse-Event-Signature header"), w).
Proof.
  unfold Handler.carries. intros Hsig.
  unfold Handler.webhook, try_catch. now rewrite Hsig.
Qed.

Lemma missing_signature_bad_request_witness :
  Handler.webhook Scenario.runtime Scenario.config
    {| Handler.headers := ∅; Handler.rawBody := None |}
    (Scenario.connected Scenario.accepting)
  = (Normal (Handler.error_reply 400 "Bad Request"
               "Missing X-Discourse-Event-Signature header"),
     Scenario.connected Scenario.accepting).
Proof. apply missing_signature_bad_request. reflexivity. Defined.

(** A request with both headers but no raw body (the content-type parser
    that stores it did not run) is answered 500 with "Raw body not
    available"; the signature is not checked and nothing is published. *)
Theorem missing_raw_body_internal_error
    (rt : Runtime) (config : Handler.HandlerConfig)
    (request : Handler.FastifyRequest) (w : World) :
  Handler.carries request "x-discourse-event-signature" = true ->
  Handler.carries request "x-discourse-event" = true ->
  Handler.rawBody request = None ->
  Handler.webhook rt config request w
  = (Normal (Handler.error_reply 500 "Internal Server Error" "Raw body not available"), w).
Proof.
  unfold Handler.carries. intros Hsig Hevent Hbody.
  unfold Handler.webhook, try_catch. now rewrite Hsig, Hevent, Hbody.
Qed.

Lemma missing_raw_body_internal_error_witness :
  Handler.webhook Scenario.runtime Scenario.config
    {| Handler.headers := Handler.headers Scenario.request; Handler.rawBody := None |}
    (Scenario.connected Scenario.accepting)
  = (Normal (Handler.error_reply 500 "Internal Server Error" "Raw body not available"),
     Scenario.connected Scenario.accepting).
Proof. apply missing_raw_body_internal_error; vm_compute; reflexivity. Defined.

(** A request whose signature validates but whose body [JSON.parse]
    refuses is answered 500 with "Failed to process webhook", and no
    publish call is made. *)
Theorem unparsable_body_internal_error
    (rt : Runtime) (config : Handler.HandlerConfig)
    (request : Handler.FastifyRequest) (w : World)
    (signature : string) (rawBody : Buffer.t)
    (r : Security.SignatureValidationResult) (e : exn) :
  Handler.headers request !! "x-discourse-event-signature"%string = Some signature ->
  Handler.carries request "x-discourse-event-signature" = true ->
  Handler.carries request "x-discourse-event" = true ->
  Handler.rawBody request = Some rawBody ->
  Security.validateWebhookSignature rawBody signature
    (Handler.discourseWebhookSecret config) = Normal r ->
  Security.valid r = true ->
  JSON_parse rt (Buffer.toString rawBody) = Throw e ->
  Handler.webhook rt config request w
  = (Normal (Handler.error_reply 500 "Internal Server Error" "Failed to process webhook"),
     w).
Proof.
  unfold Handler.carries. intros Hheader Hsig Hevent Hbody Hcheck Hvalid Hparse.
  unfold Handler.webhook, try_catch.
  rewrite Hsig, Hevent, Hbody. cbn [negb].
  rewrite Hheader. cbn [of_header as_string].
  unfold bind at 1, lift at 1. rewrite Hcheck, Hvalid. cbn [negb].
  unfold bind at 1, lift at 1. now rewrite Hparse.
Qed.

Lemma unparsable_body_internal_error_witness :
  Handler.webhook Scenario.runtime Scenario.config Cases.unparsable_request
    (Scenario.connected Scenario.accepting)
  = (Normal (Handler.error_reply 500 "Internal Server Error" "Failed to process webhook"),
     Scenario.connected Scenario.accepting).
Proof.
  apply (unparsable_body_internal_error _ _ _ _
           ("sha256=" +:+ Security.expectedHash Cases.unparsable_body Scenario.secret)
           Cases.unparsable_body Security.is_valid
           (Error "SyntaxError" "Unexpected token"));
    vm_compute; reflexivity.
Defined.

Lemma validate_returns (B : Buffer.t) (signature S : string) :
  exists r, Security.validateWebhookSignature B signature S = Normal r.
Proof.
  unfold Security.validateWebhookSignature.
  destruct (Security.validate_try B signature S); eexists; reflexivity.
Qed.

Lemma carries_header (request : Handler.FastifyRequest) (name : string) :
  Handler.carries request name = true ->
  exists text, Handler.headers request !! name = Some text.
Proof.
  unfold Handler.carries.
  destruct (Handler.headers request !! name) as [text|]; [eauto | discriminate].
Qed.

(** Every way a request can go through the handler. *)
Lemma webhook_cases
    (rt : Runtime) (config : Handler.HandlerConfig)
    (request : Handler.FastifyRequest) (w : World) :
  (exists (status : Z) (title message : string),
      (status = 400 \/ status = 403 \/ status = 500)
      /\ Handler.webhook rt config request w
         = (Normal (Handler.error_reply status title message), w))
  \/ (exists envelope : value,
         channel w = None
         /\ Handler.webhook rt config request w
            = (Normal (Handler.error_reply 500 "Internal Server Error"
                         "Failed to process webhook"),
               {| channel := channel w; trace := trace w ++ [Publish envelope] |}))
  \/ (exists (envelope : value) (buffer : Buffer.t) (ch : Channel),
         channel w = Some ch
         /\ Handler.webhook rt config request w
            = (match sendToQueue_answer ch
                       (MessageQueue.queueName (Handler.queue config)) buffer with
               | Normal true => Normal (Handler.queued_reply (Str (randomUUID rt)))
               | Normal false =>
                   Normal (Handler.error_reply 503 "Service Unavailable"
                             "Queue is full or unavailable")
               | Throw _ =>
                   Normal (Handler.error_reply 500 "Internal Server Error"
                             "Failed to process webhook")
               end,
               {| channel := channel w;
                  trace := trace w
                           ++ [Publish envelope;
                               SendToQueue (MessageQueue.queueName (Handler.queue config))
                                 buffer true] |})).
Proof.
  remember (Handler.webhook rt config request w) as run eqn:Hrun.
  unfold Handler.webhook, try_catch in Hrun.
  destruct (Handler.carries request "x-discourse-event-signature") eqn:Hsig;
    pose proof Hsig as Hsig'; unfold Handler.carries in Hsig'; rewrite Hsig' in Hrun.
  2: { left. exists 400, "Bad Request"%string,
         "Missing X-Discourse-Event-Signature header"%string.
       split; [now left | exact Hrun]. }
  destruct (Handler.carries request "x-discourse-event") eqn:Hevent;
    pose proof Hevent as Hevent'; unfold Handler.carries in Hevent';
    rewrite Hevent' in Hrun.
  2: { left. exists 400, "Bad Request"%string, "Missing X-Discourse-Event header"%string.
       split; [now left | exact Hrun]. }
  destruct (Handler.rawBody request) as [rawBody|] eqn:Hbody.
  2: { left. exists 500, "Internal Server Error"%string, "Raw body not available"%string.
       split; [now right; right | exact Hrun]. }
  destruct (carries_header _ _ Hsig) as [signature Hheader].
  destruct (validate_returns rawBody signature (Handler.discourseWebhookSecret config))
    as [r Hcheck].
  cbn [negb] in Hrun. rewrite Hheader in Hrun. cbn [of_header as_string] in Hrun.
  unfold bind at 1, lift at 1 in Hrun. rewrite Hcheck in Hrun.
  destruct (Security.valid r).
  2: { left. exists 403, "Forbidden"%string, "Invalid signature"%string.
       split; [now right; left | exact Hrun]. }
  cbn [negb] in Hrun. unfold bind at 1, lift at 1 in Hrun.
  destruct (JSON_parse rt (Buffer.toString rawBody)) as [payload|e].
  2: { left. exists 500, "Internal Server Error"%string, "Failed to process webhook"%string.
       split; [now right; right | exact Hrun]. }
  cbv zeta in Hrun. unfold bind at 1 in Hrun.
  match type of Hrun with
  | context [MessageQueue.publish ?q (Obj ?props)] =>
      destruct (channel w) as [ch|] eqn:Hch;
      [ destruct (publish_connected q props w ch Hch) as [buffer Hpublish];
        rewrite Hpublish in Hrun;
        right; right; exists (Obj props), buffer, ch
      | right; left; exists (Obj props);
        unfold MessageQueue.publish, bind, emit in Hrun; cbn [channel trace] in Hrun;
        rewrite Hch in Hrun ]
  end.
  - split; [reflexivity|]. rewrite Hrun, Hch.
    destruct (sendToQueue_answer ch _ buffer) as [[|]|e]; reflexivity.
  - split; [reflexivity|]. exact Hrun.
Qed.

(** The handler always replies, whatever the request, the runtime and
    the state of the queue: it never throws, the status is one of 200,
    400, 403, 500 and 503, it makes at most one publish call, it leaves
    the [channel] field alone, a 400 or 403 leaves the whole state as it
    was, and a 200 or 503 is only given after exactly one publish call. *)
Theorem webhook_always_replies
    (rt : Runtime) (config : Handler.HandlerConfig)
    (request : Handler.FastifyRequest) (w : World) :
  exists reply : Handler.Reply,
    fst (Handler.webhook rt config request w) = Normal reply
    /\ In (Handler.code reply) [200; 400; 403; 500; 503]
    /\ channel (snd (Handler.webhook rt config request w)) = channel w
    /\ (length (publish_calls (effects (Handler.webhook rt config request) w)) <= 1)%nat
    /\ (Handler.code reply = 400 \/ Handler.code reply = 403 ->
        snd (Handler.webhook rt config request w) = w)
    /\ (Handler.code reply = 200 \/ Handler.code reply = 503 ->
        length (publish_calls (effects (Handler.webhook rt config request) w)) = 1%nat).
Proof.
  destruct (webhook_cases rt config request w)
    as [(status & title & message & Hstatus & Hrun)
       | [(envelope & Hch & Hrun) | (envelope & buffer & ch & Hch & Hrun)]].
  - exists (Handler.error_reply status title message).
    rewrite (effects_none _ _ _ Hrun), Hrun.
    cbn [fst snd Handler.code Handler.error_reply publish_calls length In].
    split; [reflexivity|]. split; [lia|]. split; [reflexivity|]. split; [lia|].
    split; [reflexivity|]. intros [H|H]; lia.
  - exists (Handler.error_reply 500 "Internal Server Error" "Failed to process webhook").
    rewrite (effects_added _ _ _ _ _ Hrun), Hrun.
    cbn [fst snd channel Handler.code Handler.error_reply publish_calls length In].
    split; [reflexivity|]. split; [lia|]. split; [reflexivity|]. split; [lia|].
    split; intros [H|H]; discriminate H.
  - rewrite (effects_added _ _ _ _ _ Hrun), Hrun.
    cbn [fst snd channel publish_calls length].
    destruct (sendToQueue_answer ch _ buffer) as [[|]|e]; eexists;
      (split; [reflexivity|]);
      cbn [Handler.code Handler.error_reply Handler.queued_reply In];
      (split; [lia|]); (split; [reflexivity|]); (split; [lia|]);
      split; intros [H|H]; try discriminate H; reflexivity.
Qed.

(** What is sent to the queue for an accepted request whose parsed body
    holds no number beyond the safe integers: one message, to the
    configured queue, marked persistent, whose content is the JSON text
    of the envelope. The envelope has the fresh id, the event type and
    the event headers as received, the parsed body as payload, and it is
    sent whatever the channel then answers. *)
Theorem published_message_is_envelope_text
    (rt : Runtime) (config : Handler.HandlerConfig)
    (request : Handler.FastifyRequest) (w : World)
    (signature eventType : string) (rawBody : Buffer.t)
    (r : Security.SignatureValidationResult) (payload : value) (ch : Channel) :
  Handler.headers request !! "x-discourse-event-signature"%string = Some signature ->
  Handler.headers request !! "x-discourse-event"%string = Some eventType ->
  signature <> EmptyString -> eventType <> EmptyString ->
  Handler.rawBody request = Some rawBody ->
  Security.validateWebhookSignature rawBody signature
    (Handler.discourseWebhookSecret config) = Normal r ->
  Security.valid r = true ->
  JSON_parse rt (Buffer.toString rawBody) = Normal payload ->
  JSON.safe payload = true ->
  channel w = Some ch ->
  exists (envelope event headers : value) (text : string),
    effects (Handler.webhook rt config request) w
    = [Publish envelope;
       SendToQueue (MessageQueue.queueName (Handler.queue config))
         (Buffer.from_string text) true]
    /\ JSON.stringify envelope = Some text
    /\ get envelope "id" = Normal (Str (randomUUID rt))
    /\ get envelope "event" = Normal event
    /\ get event "event_type" = Normal (Str eventType)
    /\ get event "payload" = Normal payload
    /\ get event "headers" = Normal headers
    /\ get headers "x-discourse-event-signature" = Normal (Str signature)
    /\ get headers "x-discourse-event-id"
       = Normal (of_header (Handler.headers request !! "x-discourse-event-id"%string))
    /\ get headers "x-discourse-instance"
       = Normal (of_header (Handler.headers request !! "x-discourse-instance"%string)).
Proof.
  intros Hheader Hevent Hsig_ne Hevent_ne Hbody Hcheck Hvalid Hparse _ Hch.
  assert (Hsig : truthy (of_header (Handler.headers request
                                      !! "x-discourse-event-signature"%string)) = true).
  { rewrite Hheader. cbn. destruct signature; [contradiction | reflexivity]. }
  assert (Hev : truthy (of_header (Handler.headers request
                                     !! "x-discourse-event"%string)) = true).
  { rewrite Hevent. cbn. destruct eventType; [contradiction | reflexivity]. }
  unfold effects.
  remember (Handler.webhook rt config request w) as run eqn:Hrun.
  unfold Handler.webhook, try_catch in Hrun.
  rewrite Hsig, Hev, Hbody in Hrun. cbn [negb] in Hrun.
  rewrite Hheader, Hevent in Hrun. cbn [of_header as_string] in Hrun.
  unfold bind at 1, lift at 1 in Hrun. rewrite Hcheck, Hvalid in Hrun.
  cbn [negb] in Hrun. unfold bind at 1, lift at 1 in Hrun. rewrite Hparse in Hrun.
  cbv zeta in Hrun. unfold bind at 1 in Hrun.
  match type of Hrun with
  | context [MessageQueue.publish ?q (Obj ?props)] =>
      destruct (JSON.stringify (Obj props)) as [text|] eqn:Htext;
      [|discriminate Htext];
      assert (Hpublish :
         MessageQueue.publish q (Obj props) w
         = (sendToQueue_answer ch (MessageQueue.queueName q) (Buffer.from_string text),
            {| channel := channel w;
               trace := trace w ++ [Publish (Obj props);
                                    SendToQueue (MessageQueue.queueName q)
                                      (Buffer.from_string text) true] |}))
  end.
  { unfold MessageQueue.publish, bind, emit at 1. cbn [channel trace].
    rewrite Hch. unfold try_catch, bind, lift. rewrite Htext.
    cbn [MessageQueue.Buffer_from].
    unfold MessageQueue.sendToQueue, bind, emit, lift, ret, throw.
    cbn [channel trace get]. rewrite <- app_assoc. cbn [app].
    destruct (sendToQueue_answer ch _ _) as [success|e]; reflexivity. }
  rewrite Hpublish in Hrun.
  do 3 eexists. exists text.
  split.
  - rewrite Hrun.
    destruct (sendToQueue_answer ch _ _) as [[|]|e];
      unfold bind, lift, ret; cbn [snd trace get negb];
      rewrite List.skipn_app, List.skipn_all, Nat.sub_diag; reflexivity.
  - split; [exact Htext|]. repeat split; reflexivity.
Qed.

Lemma published_message_is_envelope_text_witness :
  exists (envelope event headers : value) (text : string),
    effects (Handler.webhook Scenario.runtime Scenario.config Scenario.request)
      (Scenario.connected Scenario.saturated)
    = [Publish envelope;
       SendToQueue (MessageQueue.queueName (Handler.queue Scenario.config))
         (Buffer.from_string text) true]
    /\ JSON.stringify envelope = Some text
    /\ get envelope "id" = Normal (Str (randomUUID Scenario.runtime))
    /\ get envelope "event" = Normal event
    /\ get event "event_type" = Normal (Str "notification")
    /\ get event "payload" = Normal (Obj [])
    /\ get event "headers" = Normal headers
    /\ get headers "x-discourse-event-signature" = Normal (Str Scenario.signature)
    /\ get headers "x-discourse-event-id"
       = Normal (of_header (Handler.headers Scenario.request
                              !! "x-discourse-event-id"%string))
    /\ get headers "x-discourse-instance"
       = Normal (of_header (Handler.headers Scenario.request
                              !! "x-discourse-instance"%string)).
Proof.
  apply (published_message_is_envelope_text Scenario.runtime Scenario.config
           Scenario.request (Scenario.connected Scenario.saturated)
           Scenario.signature "notification" Scenario.rawBody Security.is_valid
           (Obj []) Scenario.saturated);
    try (vm_compute; reflexivity); discriminate.
Defined.

(* --------------------------------------------------------------------- *)
(** ** The processors and the router                                      *)
(* --------------------------------------------------------------------- *)



(** The router, case by case: a message without a readable event or
    event type throws, a notification goes to the notification processor
    and its outcome (exception included) is the router's, anything else
    is left alone. *)
Lemma routeMessage_unfold (rt : Runtime) (message : value) (w : World) :
  Worker.routeMessage rt message w =
  match get message "event" with
  | Throw e => (Throw e, w)
  | Normal event =>
      match get event "event_type" with
      | Throw e => (Throw e, w)
      | Normal eventType =>
          if is_string "notification" eventType
             || is_string "notification_created" eventType
          then (discard (fst (Worker.processNotificationEvent rt event w)),
                snd (Worker.processNotificationEvent rt event w))
          else (Normal tt, w)
      end
  end.
Proof.
  unfold Worker.routeMessage, bind, lift, try_catch, ret, throw.
  destruct (get message "event") as [event|e]; [|reflexivity].
  destruct (get event "event_type") as [eventType|e]; [|reflexivity].
  destruct (is_string "notification" eventType
            || is_string "notification_created" eventType); [|reflexivity].
  destruct (Worker.processNotificationEvent rt event w) as [[r|e] w1]; reflexivity.
Qed.


(** A notification event goes to the notification processor, and what
    the processor does is what the router does: its exception, if any,
    is passed on as it is, and its result is dropped. *)
Theorem notification_routed
    (rt : Runtime) (message event eventType : value) (w : World) :
  get message "event" = Normal event ->
  get event "event_type" = Normal eventType ->
  is_string "notification" eventType || is_string "notification_created" eventType = true ->
  Worker.routeMessage rt message w
  = (discard (fst (Worker.processNotificationEvent rt event w)),
     snd (Worker.processNotificationEvent rt event w)).
Proof.
  intros Hevent Htype Hknown. now rewrite routeMessage_unfold, Hevent, Htype, Hknown.
Qed.

Lemma notification_routed_witness :
  Worker.routeMessage Scenario.runtime Cases.mention_envelope
    (Scenario.connected Scenario.accepting)
  = (discard (fst (Worker.processNotificationEvent Scenario.runtime Cases.mention_event
                     (Scenario.connected Scenario.accepting))),
     snd (Worker.processNotificationEvent Scenario.runtime Cases.mention_event
            (Scenario.connected Scenario.accepting))).
Proof.
  apply (notification_routed _ _ _ (Str "notification")); reflexivity.
Defined.

(** A message that is [null] or [undefined], or whose [event] is, makes
    the router throw a TypeError before any processor runs. *)
Theorem message_without_event_throws (rt : Runtime) (message : value) (w : World) :
  nullish message = true \/ nullish (read message "event") = true ->
  exists text : string,
    Worker.routeMessage rt message w = (Throw (Error "TypeError" text), w).
Proof.
  intros Hshape. rewrite routeMessage_unfold. unfold read in Hshape.
  destruct (get message "event") as [event|e] eqn:Hevent.
  - destruct Hshape as [Hmessage|Hevent'].
    + destruct message; discriminate.
    + destruct event; try discriminate Hevent'; eexists; reflexivity.
  - destruct message; try discriminate Hevent; cbn in Hevent;
      injection Hevent as <-; eexists; reflexivity.
Qed.

Lemma message_without_event_throws_witness :
  exists text : string,
    Worker.routeMessage Scenario.runtime (Obj [])
      (Scenario.connected Scenario.accepting)
    = (Throw (Error "TypeError" text), Scenario.connected Scenario.accepting).
Proof. apply message_without_event_throws. right. reflexivity. Defined.

(* --------------------------------------------------------------------- *)
(** ** Deliveries                                                         *)
(* --------------------------------------------------------------------- *)

Lemma channel_reject_connected
    (msg : ConsumeMessage) (requeue : bool) (w : World) (ch : Channel) :
  channel w = Some ch ->
  MessageQueue.channel_reject msg requeue w
  = (reject_answer ch,
     {| channel := channel w; trace := trace w ++ [Reject msg requeue] |}).
Proof.
  intros Hch. unfold MessageQueue.channel_reject. rewrite Hch.
  unfold bind, emit, lift. rewrite ?Hch. reflexivity.
Qed.

Lemma retry_decision (msg : ConsumeMessage) (w : World) (ch : Channel) :
  channel w = Some ch ->
  (if MessageQueue.retryCount msg <? 3
   then MessageQueue.channel_reject msg true
   else MessageQueue.channel_reject msg false) w
  = (reject_answer ch,
     {| channel := channel w;
        trace := trace w ++ [Reject msg (MessageQueue.retryCount msg <? 3)] |}).
Proof.
  intros Hch.
  destruct (MessageQueue.retryCount msg <? 3); now apply channel_reject_connected.
Qed.

(** A delivery whose content [JSON.parse] refuses is treated as a failed
    processing: the handler is not called, and [reject] is called on the
    delivery, with requeue while its counter is below 3.  It is the one
    call made on the channel, and the callback ends as that call does:
    it returns when [reject] returns, and an exception of [reject], as
    on a closed channel, leaves the callback. *)
Theorem unparsable_delivery_retried
    (rt : Runtime) (handler : value -> M World unit) (msg : ConsumeMessage)
    (e : exn) (w : World) (ch : Channel) :
  channel w = Some ch ->
  JSON_parse rt (Buffer.toString (content msg)) = Throw e ->
  MessageQueue.on_message rt handler (Some msg) w
  = (reject_answer ch,
     {| channel := channel w;
        trace := trace w ++ [Reject msg (MessageQueue.retryCount msg <? 3)] |}).
Proof.
  intros Hch Hparse.
  unfold MessageQueue.on_message, try_catch, bind, lift. rewrite Hparse.
  now apply retry_decision.
Qed.

Lemma unparsable_delivery_retried_witness :
  Scenario.callback (Some Cases.unparsable_delivery) (Scenario.connected Scenario.accepting)
  = (Normal tt,
     {| channel := channel (Scenario.connected Scenario.accepting);
        trace := trace (Scenario.connected Scenario.accepting)
                 ++ [Reject Cases.unparsable_delivery
                       (MessageQueue.retryCount Cases.unparsable_delivery <? 3)] |}).
Proof.
  apply (unparsable_delivery_retried _ _ _ (Error "SyntaxError" "Unexpected token")
           _ Scenario.accepting); reflexivity.
Defined.



(* --------------------------------------------------------------------- *)
(** ** When a processor returns, and what                                 *)
(* --------------------------------------------------------------------- *)

(** Case analysis on the shape of the values a processor reads. *)
Ltac shape_cases :=
  repeat first
    [ progress unfold bind, lift, ret, throw, try_catch, emit,
        Worker.processing_result, destructure, read, get
    | progress cbn [fst snd nullish is_number orb]
    | match goal with
      | |- context [assoc ?k ?props] => generalize (assoc k props); intro
      | |- context [match ?v with Undefined => _ | _ => _ end] => is_var v; destruct v
      | |- context [if ?b then _ else _] => destruct b eqn:?
      end ].

(** Two tests [v === a] and [v === b] on different numbers cannot both
    succeed. *)
Ltac number_clash :=
  repeat match goal with
         | H : is_number _ ?v = true |- _ =>
             destruct v; try discriminate H;
             cbn [is_number] in H; apply Z.eqb_eq in H; subst
         end;
  cbn in *; discriminate.

Ltac settle_iff :=
  split;
  [ intros [? Hreturned]; try discriminate Hreturned;
    repeat split; try reflexivity; try discriminate; intros; try reflexivity;
    try discriminate
  | intros Hshape; decompose [and] Hshape; clear Hshape;
    try discriminate;
    try (eexists; reflexivity);
    try match goal with
        | H : true = true -> _ |- _ => specialize (H eq_refl); discriminate H
        end ].

(** The notification processor returns exactly on events shaped like a
    notification: the event, its payload, the payload's [notification]
    and the event's [headers] are neither [undefined] nor [null], and for
    the types that read it (1 mentioned, 6 private message, 12 granted
    badge) neither is the notification's [data]. On every other event it
    throws. *)
Theorem notification_processed_iff (rt : Runtime) (event : value) (w : World) :
  (exists r, fst (Worker.processNotificationEvent rt event w) = Normal r)
  <-> nullish event = false
      /\ nullish (read event "payload") = false
      /\ nullish (read (read event "payload") "notification") = false
      /\ (is_number 1 (read (read (read event "payload") "notification")
                         "notification_type")
          || is_number 6 (read (read (read event "payload") "notification")
                            "notification_type")
          || is_number 12 (read (read (read event "payload") "notification")
                             "notification_type") = true ->
          nullish (read (read (read event "payload") "notification") "data") = false)
      /\ nullish (read event "headers") = false.
Proof.
  unfold Worker.processNotificationEvent.
  destruct event; shape_cases; settle_iff; number_clash.
Qed.

Lemma notification_processed_iff_witness :
  exists r, fst (Worker.processNotificationEvent Scenario.runtime Cases.mention_event
                   (Scenario.connected Scenario.accepting)) = Normal r.
Proof.
  apply (proj2 (notification_processed_iff Scenario.runtime Cases.mention_event
                  (Scenario.connected Scenario.accepting))).
  repeat split; reflexivity.
Defined.

(** The user processor returns exactly on events whose payload has a
    [user]: the event, its payload, the payload's [user] and the event's
    [headers] are neither [undefined] nor [null]. *)
Theorem user_processed_iff (rt : Runtime) (event : value) (w : World) :
  (exists r, fst (Worker.processUserEvent rt event w) = Normal r)
  <-> nullish event = false
      /\ nullish (read event "payload") = false
      /\ nullish (read (read event "payload") "user") = false
      /\ nullish (read event "headers") = false.
Proof.
  unfold Worker.processUserEvent.
  destruct event; shape_cases; settle_iff.
Qed.

Lemma user_processed_iff_witness :
  exists r, fst (Worker.processUserEvent Scenario.runtime Cases.user_created_event
                   (Scenario.connected Scenario.accepting)) = Normal r.
Proof.
  apply (proj2 (user_processed_iff Scenario.runtime Cases.user_created_event
                  (Scenario.connected Scenario.accepting))).
  repeat split; reflexivity.
Defined.

(** The generic processor returns on every event that has [headers],
    whatever its type and payload, and throws on the others. *)
Theorem generic_processed_iff (rt : Runtime) (event : value) (w : World) :
  (exists r, fst (Worker.processGenericEvent rt event w) = Normal r)
  <-> nullish event = false /\ nullish (read event "headers") = false.
Proof.
  unfold Worker.processGenericEvent.
  destruct event; shape_cases; settle_iff.
Qed.

Lemma generic_processed_iff_witness :
  exists r, fst (Worker.processGenericEvent Scenario.runtime Scenario.event_received
                   (Scenario.connected Scenario.accepting)) = Normal r.
Proof.
  apply (proj2 (generic_processed_iff Scenario.runtime Scenario.event_received
                  (Scenario.connected Scenario.accepting))).
  repeat split; reflexivity.
Defined.

Ltac settle_result :=
  intros Hreturned; try discriminate Hreturned;
  injection Hreturned as <-; reflexivity.

Lemma user_result (rt : Runtime) (event : value) (w : World) (r : value) :
  fst (Worker.processUserEvent rt event w) = Normal r -> r = reported rt event.
Proof.
  unfold Worker.processUserEvent, reported.
  destruct event; shape_cases; settle_result.
Qed.

Lemma notification_result (rt : Runtime) (event : value) (w : World) (r : value) :
  fst (Worker.processNotificationEvent rt event w) = Normal r -> r = reported rt event.
Proof.
  unfold Worker.processNotificationEvent, reported.
  destruct event; shape_cases; settle_result.
Qed.

Lemma generic_result (rt : Runtime) (event : value) (w : World) (r : value) :
  fst (Worker.processGenericEvent rt event w) = Normal r -> r = reported rt event.
Proof.
  unfold Worker.processGenericEvent, reported.
  destruct event; shape_cases; settle_result.
Qed.

(** Whenever one of the three processors returns, what it returns says
    [success: true], with the event's own type and, as [message_id], the
    event id header, or "unknown" when the event has none. A processor
    never returns a failure: it fails by throwing. *)
Theorem processors_report_success
    (rt : Runtime) (event : value) (w : World) (r : value) :
  fst (Worker.processUserEvent rt event w) = Normal r
  \/ fst (Worker.processNotificationEvent rt event w) = Normal r
  \/ fst (Worker.processGenericEvent rt event w) = Normal r ->
  r = Obj [ ("success", Bool true);
            ("message_id",
             or_else (read (read event "headers") "x-discourse-event-id") (Str "unknown"));
            ("event_type", read event "event_type");
            ("processed_at", Str (toISOString rt 0)) ]%string.
Proof.
  intros [H|[H|H]].
  - exact (user_result rt event w r H).
  - exact (notification_result rt event w r H).
  - exact (generic_result rt event w r H).
Qed.

Lemma processors_report_success_witness :
  Obj [ ("success", Bool true);
        ("message_id", Str "42");
        ("event_type", Str "notification");
        ("processed_at", Str Scenario.instant) ]%string
  = Obj [ ("success", Bool true);
          ("message_id",
           or_else (read (read Cases.mention_event "headers") "x-discourse-event-id")
             (Str "unknown"));
          ("event_type", read Cases.mention_event "event_type");
          ("processed_at", Str (toISOString Scenario.runtime 0)) ]%string.
Proof.
  apply (processors_report_success Scenario.runtime Cases.mention_event
           (Scenario.connected Scenario.accepting)).
  right. left. reflexivity.
Defined.

(* --------------------------------------------------------------------- *)
(** ** Connecting and closing                                             *)
(* --------------------------------------------------------------------- *)

Ltac run_client :=
  unfold Lifecycle.connect, Lifecycle.close, Lifecycle.close_channel,
    Lifecycle.close_connection, Lifecycle.call, Lifecycle.set_connection,
    Lifecycle.set_channel, try_catch, bind, lift, ret, throw;
  cbn [connection process calls channel trace fst snd].

(** When the library answers every call, [connect] returns with both
    fields set, so that [isConnected] holds, having declared the queue
    durable with a 24 hour message TTL and a maximum length of 100000 and
    registered the two connection handlers, in this order. *)
Theorem connect_succeeds
    (lib : Amqp) (self : MessageQueue.t) (s : Client) (conn : Connection) (ch : Channel) :
  connect_answer lib (MessageQueue.rabbitmqUrl self) = Normal conn ->
  createChannel_answer lib conn = Normal ch ->
  assertQueue_answer lib (MessageQueue.queueName self) = Normal tt ->
  Lifecycle.connect lib self s
  = (Normal tt,
     {| connection := Some conn;
        process := {| channel := Some ch; trace := trace (process s) |};
        calls := calls s
                 ++ [Connect (MessageQueue.rabbitmqUrl self);
                     CreateChannel;
                     AssertQueue (MessageQueue.queueName self) true 86400000 100000;
                     OnConnection "error";
                     OnConnection "close"] |})
  /\ Lifecycle.isConnected (snd (Lifecycle.connect lib self s)) = true.
Proof.
  intros Hconnect Hchannel Hassert.
  assert (Hrun : Lifecycle.connect lib self s
                 = (Normal tt,
                    {| connection := Some conn;
                       process := {| channel := Some ch; trace := trace (process s) |};
                       calls := calls s
                                ++ [Connect (MessageQueue.rabbitmqUrl self);
                                    CreateChannel;
                                    AssertQueue (MessageQueue.queueName self) true
                                      86400000 100000;
                                    OnConnection "error";
                                    OnConnection "close"] |})).
  { run_client. rewrite Hconnect. cbn [connection process calls channel trace].
    rewrite Hchannel. cbn [connection process calls channel trace].
    rewrite Hassert. cbn [connection process calls channel trace].
    now rewrite <- !app_assoc. }
  split; [exact Hrun|]. now rewrite Hrun.
Qed.

Lemma connect_succeeds_witness :
  Lifecycle.connect Cases.healthy Cases.queue Cases.fresh
  = (Normal tt,
     {| connection := Some Cases.link;
        process := {| channel := Some Scenario.accepting;
                      trace := trace (process Cases.fresh) |};
        calls := calls Cases.fresh
                 ++ [Connect (MessageQueue.rabbitmqUrl Cases.queue);
                     CreateChannel;
                     AssertQueue (MessageQueue.queueName Cases.queue) true 86400000 100000;
                     OnConnection "error";
                     OnConnection "close"] |})
  /\ Lifecycle.isConnected (snd (Lifecycle.connect Cases.healthy Cases.queue Cases.fresh))
     = true.
Proof. apply connect_succeeds; reflexivity. Defined.

(** How [connect] fails on a client that was not connected. Each failure
    is thrown on as it is. When the connection is refused nothing is
    set; when the channel cannot be created only the connection is set;
    in both cases [isConnected] stays false. When declaring the queue
    fails both fields are already set: [connect] throws and
    [isConnected] is true all the same. *)
Theorem connect_failures
    (lib : Amqp) (self : MessageQueue.t) (s : Client) (e : exn) :
  connection s = None -> channel (process s) = None ->
  (connect_answer lib (MessageQueue.rabbitmqUrl self) = Throw e ->
   fst (Lifecycle.connect lib self s) = Throw e
   /\ connection (snd (Lifecycle.connect lib self s)) = None
   /\ process (snd (Lifecycle.connect lib self s)) = process s
   /\ Lifecycle.isConnected (snd (Lifecycle.connect lib self s)) = false)
  /\ (forall conn,
      connect_answer lib (MessageQueue.rabbitmqUrl self) = Normal conn ->
      createChannel_answer lib conn = Throw e ->
      fst (Lifecycle.connect lib self s) = Throw e
      /\ connection (snd (Lifecycle.connect lib self s)) = Some conn
      /\ process (snd (Lifecycle.connect lib self s)) = process s
      /\ Lifecycle.isConnected (snd (Lifecycle.connect lib self s)) = false)
  /\ (forall conn ch,
      connect_answer lib (MessageQueue.rabbitmqUrl self) = Normal conn ->
      createChannel_answer lib conn = Normal ch ->
      assertQueue_answer lib (MessageQueue.queueName self) = Throw e ->
      fst (Lifecycle.connect lib self s) = Throw e
      /\ Lifecycle.isConnected (snd (Lifecycle.connect lib self s)) = true).
Proof.
  intros Hconnection Hchannel. split; [|split].
  - intros Hconnect. run_client. rewrite Hconnect.
    cbn [fst snd connection process calls]. unfold Lifecycle.isConnected.
    cbn [connection process]. rewrite Hconnection. repeat split.
  - intros conn Hconnect Hcreate. run_client. rewrite Hconnect.
    cbn [connection process calls channel trace]. rewrite Hcreate.
    cbn [fst snd connection process calls]. unfold Lifecycle.isConnected.
    cbn [connection process]. rewrite Hchannel. repeat split.
  - intros conn ch Hconnect Hcreate Hassert. run_client. rewrite Hconnect.
    cbn [connection process calls channel trace]. rewrite Hcreate.
    cbn [connection process calls channel trace]. rewrite Hassert.
    split; reflexivity.
Qed.

Lemma connect_failures_witness :
  (fst (Lifecycle.connect Cases.unreachable Cases.queue Cases.fresh) = Throw Cases.refused
   /\ connection (snd (Lifecycle.connect Cases.unreachable Cases.queue Cases.fresh)) = None
   /\ process (snd (Lifecycle.connect Cases.unreachable Cases.queue Cases.fresh))
      = process Cases.fresh
   /\ Lifecycle.isConnected (snd (Lifecycle.connect Cases.unreachable Cases.queue Cases.fresh))
      = false)
  /\ (fst (Lifecycle.connect Cases.no_channel Cases.queue Cases.fresh)
      = Throw Cases.channel_lost
      /\ connection (snd (Lifecycle.connect Cases.no_channel Cases.queue Cases.fresh))
         = Some Cases.link
      /\ process (snd (Lifecycle.connect Cases.no_channel Cases.queue Cases.fresh))
         = process Cases.fresh
      /\ Lifecycle.isConnected (snd (Lifecycle.connect Cases.no_channel Cases.queue Cases.fresh))
         = false)
  /\ (fst (Lifecycle.connect Cases.mismatched_queue Cases.queue Cases.fresh)
      = Throw Cases.precondition_failed
      /\ Lifecycle.isConnected
           (snd (Lifecycle.connect Cases.mismatched_queue Cases.queue Cases.fresh))
         = true).
Proof.
  split; [|split].
  - apply (proj1 (connect_failures Cases.unreachable Cases.queue Cases.fresh
                    Cases.refused eq_refl eq_refl)).
    reflexivity.
  - apply (proj1 (proj2 (connect_failures Cases.no_channel Cases.queue Cases.fresh
                           Cases.channel_lost eq_refl eq_refl)) Cases.link);
      reflexivity.
  - apply (proj2 (proj2 (connect_failures Cases.mismatched_queue Cases.queue Cases.fresh
                           Cases.precondition_failed eq_refl eq_refl))
             Cases.link Scenario.accepting);
      reflexivity.
Defined.

(** [close] never throws, whatever the library answers, and it clears
    neither field. *)
Lemma close_keeps_fields (lib : Amqp) (s : Client) :
  fst (Lifecycle.close lib s) = Normal tt
  /\ connection (snd (Lifecycle.close lib s)) = connection s
  /\ process (snd (Lifecycle.close lib s)) = process s
  /\ Lifecycle.isConnected (snd (Lifecycle.close lib s)) = Lifecycle.isConnected s.
Proof.
  unfold Lifecycle.isConnected.
  destruct (channel (process s)) as [ch|] eqn:Hch;
    destruct (connection s) as [conn|] eqn:Hconn;
    run_client; rewrite ?Hch; run_client;
    destruct (channel_close_answer lib) as [[]|e1];
    cbn [connection process calls channel fst snd]; rewrite ?Hconn; run_client;
    destruct (connection_close_answer lib) as [[]|e2];
    cbn [connection process calls channel fst snd]; rewrite ?Hch, ?Hconn;
    repeat split.
Qed.

(** The calls [close] makes on a connected client: the channel is closed
    first and then the connection; when closing the channel throws, the
    connection is not closed at all. *)
Theorem close_order (lib : Amqp) (s : Client) (conn : Connection) (ch : Channel) :
  connection s = Some conn -> channel (process s) = Some ch ->
  calls (snd (Lifecycle.close lib s))
  = calls s ++ match channel_close_answer lib with
               | Normal _ => [CloseChannel; CloseConnection]
               | Throw _ => [CloseChannel]
               end.
Proof.
  intros Hconnection Hchannel. run_client. rewrite Hchannel. run_client.
  destruct (channel_close_answer lib) as [[]|e1].
  - cbn [connection process calls channel fst snd]. rewrite Hconnection. run_client.
    destruct (connection_close_answer lib) as [[]|e2];
      cbn [calls snd]; now rewrite <- app_assoc.
  - reflexivity.
Qed.

Lemma close_order_witness :
  calls (snd (Lifecycle.close Cases.stuck_channel Cases.live))
  = calls Cases.live ++ match channel_close_answer Cases.stuck_channel with
                        | Normal _ => [CloseChannel; CloseConnection]
                        | Throw _ => [CloseChannel]
                        end.
Proof.
  apply (close_order Cases.stuck_channel Cases.live Cases.link Scenario.accepting);
    reflexivity.
Defined.

(** On a client that never connected [close] calls nothing. *)
Lemma close_unconnected (lib : Amqp) (s : Client) :
  connection s = None -> channel (process s) = None ->
  Lifecycle.close lib s = (Normal tt, s).
Proof.
  intros Hconnection Hchannel. run_client. rewrite Hchannel. run_client.
  rewrite Hconnection. destruct s; reflexivity.
Qed.

(* --------------------------------------------------------------------- *)
(** ** Starting and stopping                                              *)
(* --------------------------------------------------------------------- *)

(** The worker's [shutdown] always exits with code 0: because [close]
    swallows every failure, the branch that exits with code 1 is never
    taken. *)
Theorem worker_shutdown_exits_zero (lib : Amqp) (s : Client) :
  fst (Service.worker_shutdown lib s) = Normal 0.
Proof.
  unfold Service.worker_shutdown, try_catch, bind at 1.
  pose proof (close_keeps_fields lib s) as [Hclose _].
  destruct (Lifecycle.close lib s) as [[[]|e] s1]; [reflexivity | discriminate Hclose].
Qed.

(** The handler's [shutdown]: when [app.close()] fails the exit code is
    1 and the queue is not closed (no call is made on the channel or the
    connection); when it succeeds the queue is closed and the exit code
    is 0, also when closing the queue fails. *)
Theorem handler_shutdown_codes (lib : Amqp) (app_close : completion unit) (s : Client) :
  Service.handler_shutdown lib app_close s
  = match app_close with
    | Throw _ => (Normal 1, s)
    | Normal _ => (Normal 0, snd (Lifecycle.close lib s))
    end.
Proof.
  unfold Service.handler_shutdown, try_catch, bind at 1, lift at 1.
  destruct app_close as [[]|e]; [|reflexivity].
  unfold bind at 1.
  pose proof (close_keeps_fields lib s) as [Hclose _].
  destruct (Lifecycle.close lib s) as [[[]|e] s1]; [reflexivity | discriminate Hclose].
Qed.

(** [connect], step by step. *)
Lemma connect_cases (lib : Amqp) (self : MessageQueue.t) (s : Client) :
  Lifecycle.connect lib self s =
  match connect_answer lib (MessageQueue.rabbitmqUrl self) with
  | Throw e =>
      (Throw e,
       {| connection := connection s; process := process s;
          calls := calls s ++ [Connect (MessageQueue.rabbitmqUrl self)] |})
  | Normal conn =>
      match createChannel_answer lib conn with
      | Throw e =>
          (Throw e,
           {| connection := Some conn; process := process s;
              calls := calls s ++ [Connect (MessageQueue.rabbitmqUrl self);
                                   CreateChannel] |})
      | Normal ch =>
          match assertQueue_answer lib (MessageQueue.queueName self) with
          | Throw e =>
              (Throw e,
               {| connection := Some conn;
                  process := {| channel := Some ch; trace := trace (process s) |};
                  calls := calls s
                           ++ [Connect (MessageQueue.rabbitmqUrl self);
                               CreateChannel;
                               AssertQueue (MessageQueue.queueName self) true
                                 86400000 100000] |})
          | Normal _ =>
              (Normal tt,
               {| connection := Some conn;
                  process := {| channel := Some ch; trace := trace (process s) |};
                  calls := calls s
                           ++ [Connect (MessageQueue.rabbitmqUrl self);
                               CreateChannel;
                               AssertQueue (MessageQueue.queueName self) true
                                 86400000 100000;
                               OnConnection "error";
                               OnConnection "close"] |})
          end
      end
  end.
Proof.
  run_client.
  destruct (connect_answer lib (MessageQueue.rabbitmqUrl self)) as [conn|e1];
    [|reflexivity].
  cbn [connection process calls channel trace].
  destruct (createChannel_answer lib conn) as [ch|e2];
    [|now rewrite <- !app_assoc].
  cbn [connection process calls channel trace].
  destruct (assertQueue_answer lib (MessageQueue.queueName self)) as [[]|e3];
    cbn [connection process calls channel trace]; now rewrite <- !app_assoc.
Qed.

(** [consume] as the worker calls it and [MessageQueue.consume] agree
    when the channel accepts both calls. *)
Lemma consume_accepted
    (lib : Amqp) (rt : Runtime) (self : MessageQueue.t)
    (handler : value -> M World unit) (s : Client) :
  prefetch_answer lib = Normal tt ->
  consume_answer lib (MessageQueue.queueName self) = Normal tt ->
  fst (Lifecycle.consume lib rt self handler s)
  = fst (MessageQueue.consume rt self handler (process s))
  /\ process (snd (Lifecycle.consume lib rt self handler s))
     = snd (MessageQueue.consume rt self handler (process s)).
Proof.
  intros Hprefetch Hconsume. unfold Lifecycle.consume, MessageQueue.consume.
  destruct (channel (process s)) as [ch|]; [|split; reflexivity].
  unfold Lifecycle.in_process, Lifecycle.call, bind, lift, ret, emit.
  cbn [fst snd connection process calls]. rewrite Hprefetch.
  cbn [fst snd connection process calls]. rewrite Hconsume. split; reflexivity.
Qed.

(** The worker's [start]. When connecting succeeds and the channel
    accepts the prefetch and the consumer, it has set the prefetch to 1
    and registered, with manual acknowledgement, the callback that routes
    each delivery. When any of the five steps fails (connecting, creating
    the channel, declaring the queue, setting the prefetch, registering
    the consumer) it exits with code 1. *)
Theorem worker_start_outcomes
    (lib : Amqp) (rt : Runtime) (self : MessageQueue.t) (s : Client) :
  (fst (Lifecycle.connect lib self s) = Normal tt ->
   prefetch_answer lib = Normal tt ->
   consume_answer lib (MessageQueue.queueName self) = Normal tt ->
   fst (Service.worker_start lib rt self s)
   = Normal (Service.Consuming (MessageQueue.on_message rt (Worker.routeMessage rt)))
   /\ trace (process (snd (Service.worker_start lib rt self s)))
      = trace (process s) ++ [Prefetch 1]
   /\ calls (snd (Service.worker_start lib rt self s))
      = calls (snd (Lifecycle.connect lib self s))
        ++ [Consume (MessageQueue.queueName self) false]
   /\ Lifecycle.isConnected (snd (Service.worker_start lib rt self s)) = true)
  /\ (forall e,
      fst (Lifecycle.connect lib self s) = Throw e
      \/ fst (Lifecycle.connect lib self s) = Normal tt
         /\ (prefetch_answer lib = Throw e
             \/ consume_answer lib (MessageQueue.queueName self) = Throw e) ->
      fst (Service.worker_start lib rt self s) = Normal (Service.Exited 1)).
Proof.
  unfold Service.worker_start, try_catch, bind. rewrite connect_cases.
  destruct (connect_answer lib (MessageQueue.rabbitmqUrl self)) as [conn|e1].
  2: { split; [intros H; discriminate H|].
       intros e [_|[H _]]; [reflexivity | discriminate H]. }
  destruct (createChannel_answer lib conn) as [ch|e2].
  2: { split; [intros H; discriminate H|].
       intros e [_|[H _]]; [reflexivity | discriminate H]. }
  destruct (assertQueue_answer lib (MessageQueue.queueName self)) as [[]|e3].
  2: { split; [intros H; discriminate H|].
       intros e [_|[H _]]; [reflexivity | discriminate H]. }
  unfold Lifecycle.consume, Lifecycle.in_process, Lifecycle.call, bind, lift, ret, emit.
  cbn [fst snd connection process calls channel trace].
  split.
  - intros _ Hprefetch Hconsume. rewrite Hprefetch.
    cbn [fst snd connection process calls channel trace]. rewrite Hconsume.
    repeat split.
  - intros e [H|[_ [H|H]]]; [discriminate H | |].
    + now rewrite H.
    + destruct (prefetch_answer lib) as [[]|e4]; [|reflexivity].
      cbn [fst snd connection process calls channel trace]. now rewrite H.
Qed.

Lemma worker_start_outcomes_witness :
  (fst (Service.worker_start Cases.healthy Scenario.runtime Cases.queue Cases.fresh)
   = Normal (Service.Consuming
               (MessageQueue.on_message Scenario.runtime
                  (Worker.routeMessage Scenario.runtime)))
   /\ trace (process (snd (Service.worker_start Cases.healthy Scenario.runtime
                             Cases.queue Cases.fresh)))
      = trace (process Cases.fresh) ++ [Prefetch 1]
   /\ calls (snd (Service.worker_start Cases.healthy Scenario.runtime
                    Cases.queue Cases.fresh))
      = calls (snd (Lifecycle.connect Cases.healthy Cases.queue Cases.fresh))
        ++ [Consume (MessageQueue.queueName Cases.queue) false]
   /\ Lifecycle.isConnected
        (snd (Service.worker_start Cases.healthy Scenario.runtime Cases.queue Cases.fresh))
      = true)
  /\ fst (Service.worker_start Cases.unreachable Scenario.runtime Cases.queue Cases.fresh)
     = Normal (Service.Exited 1).
Proof.
  split.
  - apply (proj1 (worker_start_outcomes Cases.healthy Scenario.runtime Cases.queue
                    Cases.fresh)); reflexivity.
  - apply (proj2 (worker_start_outcomes Cases.unreachable Scenario.runtime Cases.queue
                    Cases.fresh) Cases.refused).
    left. reflexivity.
Defined.

(** The health route answers 200 "healthy" exactly when both fields of
    the queue client are set and 503 "degraded" otherwise, and since
    [close] clears neither field it answers after [close] what it
    answered before. *)
Theorem health_unchanged_by_close (rt : Runtime) (lib : Amqp) (s : Client) :
  Service.health rt (snd (Lifecycle.close lib s)) = Service.health rt s
  /\ (Handler.code (Service.health rt s) = 200
      <-> connection s <> None /\ channel (process s) <> None)
  /\ (Handler.code (Service.health rt s) = 503
      <-> connection s = None \/ channel (process s) = None).
Proof.
  split; [|split].
  - unfold Service.health.
    pose proof (close_keeps_fields lib s) as Hkept.
    destruct Hkept as [_ [_ [_ Hkept]]]. now rewrite Hkept.
  - unfold Service.health, Lifecycle.isConnected.
    destruct (connection s), (channel (process s)); cbn [Handler.code];
      (split; [intros Hcode | intros [Hconn Hch]]);
      try discriminate Hcode; try reflexivity; try congruence;
      split; discriminate.
  - unfold Service.health, Lifecycle.isConnected.
    destruct (connection s), (channel (process s)); cbn [Handler.code];
      (split; [intros Hcode | intros [Hnone|Hnone]]);
      try discriminate Hcode; try discriminate Hnone; try reflexivity; auto.
Qed.

(* --------------------------------------------------------------------- *)
(** ** Configuration                                                      *)
(* --------------------------------------------------------------------- *)

(** When DISCOURSE_WEBHOOK_SECRET is unset or empty the handler is
    configured with the secret "change_me_in_production" and prints the
    warning; the route then accepts, for any body, the signature computed
    with that well-known secret. *)
Theorem unset_secret_falls_back
    {P : Type} (parseInt : string -> P) (env : gmap string string) :
  env !! "DISCOURSE_WEBHOOK_SECRET"%string = None
  \/ env !! "DISCOURSE_WEBHOOK_SECRET"%string = Some EmptyString ->
  HandlerSettings.discourseWebhookSecret (fst (HandlerSettings.getHandlerConfig parseInt env))
  = "change_me_in_production"%string
  /\ snd (HandlerSettings.getHandlerConfig parseInt env)
     = [HandlerSettings.default_secret_warning]
  /\ forall B : Buffer.t,
       Security.validateWebhookSignature B
         ("sha256=" +:+ Buffer.toString_hex
            (HMAC.sha256 (Buffer.from_string "change_me_in_production") B))
         (Handler.discourseWebhookSecret
            (HandlerSettings.wiring (fst (HandlerSettings.getHandlerConfig parseInt env))))
       = Normal Security.is_valid.
Proof.
  intros Hunset.
  assert (Hsecret : env_or env "DISCOURSE_WEBHOOK_SECRET" HandlerSettings.default_secret
                    = "change_me_in_production"%string).
  { unfold env_or. destruct Hunset as [-> | ->]; reflexivity. }
  unfold HandlerSettings.getHandlerConfig, HandlerSettings.wiring.
  cbn [fst snd HandlerSettings.discourseWebhookSecret Handler.discourseWebhookSecret].
  rewrite Hsecret. split; [reflexivity|]. split; [reflexivity|].
  intros B. apply validate_decoded, from_hex_toString_hex.
Qed.

Lemma unset_secret_falls_back_witness :
  HandlerSettings.discourseWebhookSecret
    (fst (HandlerSettings.getHandlerConfig (fun text : string => text) ∅))
  = "change_me_in_production"%string
  /\ snd (HandlerSettings.getHandlerConfig (fun text : string => text) ∅)
     = [HandlerSettings.default_secret_warning]
  /\ forall B : Buffer.t,
       Security.validateWebhookSignature B
         ("sha256=" +:+ Buffer.toString_hex
            (HMAC.sha256 (Buffer.from_string "change_me_in_production") B))
         (Handler.discourseWebhookSecret
            (HandlerSettings.wiring
               (fst (HandlerSettings.getHandlerConfig (fun text : string => text) ∅))))
       = Normal Security.is_valid.
Proof. apply unset_secret_falls_back. left. reflexivity. Defined.

(** For one environment the handler and the worker are wired to the same
    queue: the same name and the same broker URL, given by QUEUE_NAME and
    RABBITMQ_URL or by the same defaults. A variable that is set and not
    empty is the value used. *)
Theorem services_share_queue
    {P Q : Type} (parseHandler : string -> P) (parseWorker : string -> Q)
    (env : gmap string string) :
  Handler.queue
    (HandlerSettings.wiring (fst (HandlerSettings.getHandlerConfig parseHandler env)))
  = WorkerSettings.wiring (WorkerSettings.getWorkerConfig parseWorker env)
  /\ (forall name : string,
      env !! "QUEUE_NAME"%string = Some name -> name <> EmptyString ->
      MessageQueue.queueName
        (WorkerSettings.wiring (WorkerSettings.getWorkerConfig parseWorker env)) = name)
  /\ (env !! "QUEUE_NAME"%string = None ->
      MessageQueue.queueName
        (WorkerSettings.wiring (WorkerSettings.getWorkerConfig parseWorker env))
      = "discourse-events"%string).
Proof.
  split; [reflexivity|]. split.
  - intros name Hname Hne. cbn. unfold env_or. rewrite Hname.
    destruct name; [contradiction | reflexivity].
  - intros Hname. cbn. unfold env_or. now rewrite Hname.
Qed.
